(** * JouleTrace: socket-isolated energy measurement

    A shallow embedding of the measurement core of the repository
    (the RAPL reader, the calibration profile, the socket executor, the
    statistical aggregator, the serialization lock, the measurement task and
    the resource limits of the in-process executor), followed by the
    properties of the specification that concern them.

    Conventions of the embedding.
    - A Python [float] is an exact rational ([Q]); every arithmetic step of
      the source is written out on [Q], and comparisons are the boolean ones.
      [math.sqrt], which is not rational, is passed as a function argument
      ([math_sqrt]) wherever [statistics.stdev] needs it.
    - A Python [int] is a [Z]; a [dict] is a [gmap]; [None]-able values are
      [option]s; a raised exception is the left injection of a sum.
    - Wall-clock instants ([datetime], [time.time()] of the lock) are integers
      in micro- respectively milliseconds.
    - What the operating system, the file system, the child process and the
      validator answer is an explicit argument (an environment record) of the
      function that asks. *)

From Stdlib Require Import ZArith QArith Qminmax Lia Lqa String List Bool.
From stdpp Require Import gmap strings pretty.
Import ListNotations.
Open Scope string_scope.
Open Scope Z_scope.

(** ** Python prelude *)

Module py.

(** The exception classes the modelled code raises or catches. Every one of
    them derives from [Exception]. *)
Inductive exn : Type :=
| AttributeError (msg : string)
| TypeError (msg : string)
| RuntimeError (msg : string)
| ValueError (msg : string)
| OSError (msg : string)
| FileNotFoundError (msg : string)
| KeyError (msg : string)
| StatisticsError (msg : string)
| ZeroDivisionError (msg : string)
| UnboundLocalError (msg : string)
| TimeoutExpired (msg : string)
| SubprocessError (msg : string)
| EnergyMeterError (msg : string)
| EnergyMeterNotAvailableError (msg : string)
| EnergyMeterTimeoutError (msg : string).

(** [str(e)] *)
Definition str (e : exn) : string :=
  match e with
  | AttributeError m | TypeError m | RuntimeError m | ValueError m | OSError m
  | FileNotFoundError m | KeyError m | StatisticsError m | ZeroDivisionError m
  | UnboundLocalError m | TimeoutExpired m
  | SubprocessError m | EnergyMeterError m | EnergyMeterNotAvailableError m
  | EnergyMeterTimeoutError m => m
  end.

(** [type(e).__name__] *)
Definition type_name (e : exn) : string :=
  match e with
  | AttributeError _ => "AttributeError"
  | TypeError _ => "TypeError"
  | RuntimeError _ => "RuntimeError"
  | ValueError _ => "ValueError"
  | OSError _ => "OSError"
  | FileNotFoundError _ => "FileNotFoundError"
  | KeyError _ => "KeyError"
  | StatisticsError _ => "StatisticsError"
  | ZeroDivisionError _ => "ZeroDivisionError"
  | UnboundLocalError _ => "UnboundLocalError"
  | TimeoutExpired _ => "TimeoutExpired"
  | SubprocessError _ => "SubprocessError"
  | EnergyMeterError _ => "EnergyMeterError"
  | EnergyMeterNotAvailableError _ => "EnergyMeterNotAvailableError"
  | EnergyMeterTimeoutError _ => "EnergyMeterTimeoutError"
  end.

(** [isinstance(e, OSError)] and [isinstance(e, subprocess.TimeoutExpired)] *)
Definition is_OSError (e : exn) : bool :=
  match e with OSError _ | FileNotFoundError _ => true | _ => false end.

Definition is_ValueError (e : exn) : bool :=
  match e with ValueError _ => true | _ => false end.

Definition is_TimeoutExpired (e : exn) : bool :=
  match e with TimeoutExpired _ => true | _ => false end.

(** A computation that returns a value or raises. *)
Definition Exc (A : Type) : Type := (exn + A)%type.

Definition raise {A : Type} (e : exn) : Exc A := inl e.
Definition ret {A : Type} (a : A) : Exc A := inr a.

(** A computation that also threads a state [S]. *)
Definition M (S A : Type) : Type := S -> Exc A * S.

Definition mret {S A : Type} (a : A) : M S A := fun s => (inr a, s).
Definition mraise {S A : Type} (e : exn) : M S A := fun s => (inl e, s).
Definition mbind {S A B : Type} (m : M S A) (k : A -> M S B) : M S B :=
  fun s => match m s with
           | (inl e, s') => (inl e, s')
           | (inr a, s') => k a s'
           end.

(** Float comparisons [a < b], [a <= b], [a == b]. *)
Definition flt (a b : Q) : bool := negb (Qle_bool b a).
Definition fle (a b : Q) : bool := Qle_bool a b.
Definition feq (a b : Q) : bool := Qeq_bool a b.

(** The builtin [max(a, b)]: the first argument unless the second is
    strictly greater. *)
Definition max (a b : Q) : Q := if flt a b then b else a.

(** Float division [a / b]. *)
Definition fdiv (a b : Q) : Exc Q :=
  if feq b 0 then raise (ZeroDivisionError "float division by zero") else ret (a / b)%Q.

(** Truth value of an optional float: [None] and [0.0] are false. *)
Definition truthy_float (x : option Q) : bool :=
  match x with
  | None => false
  | Some q => negb (feq q 0)
  end.

(** [len(xs)] *)
Definition len {A : Type} (xs : list A) : Z := Z.of_nat (List.length xs).

(** [range(n)] *)
Definition range (n : Z) : list Z := List.map Z.of_nat (List.seq 0 (Z.to_nat n)).

End py.

Notation "'let!' x ':=' m 'in' k" := (py.mbind m (fun x => k))
  (at level 10, x name, m at level 100, k at level 200).

(** ** jouletrace/energy/pcm_socket_meter.py *)

Module pcm_socket_meter.
Import py.

(** The counter wrap the consumers add to a negative delta:
    [2**32 / 1_000_000.0]. *)
Definition rollover_joules : Q := inject_Z (2 ^ 32) / inject_Z 1000000.

(** A node of the power-capping sysfs tree, as the reader sees it:
    a directory, or a file whose text is a decimal counter, is not a number,
    or cannot be read. *)
Inductive node : Type :=
| Directory
| Counter (uj : Z)
| Garbled
| Unreadable.

(** [Path.exists()] *)
Definition exists_ (fs : gmap string node) (path : string) : bool :=
  match fs !! path with Some _ => true | None => false end.

(** [int(path.read_text().strip())] *)
Definition read_int (fs : gmap string node) (path : string) : Exc Z :=
  match fs !! path with
  | Some (Counter uj) => ret uj
  | Some Garbled => raise (ValueError "invalid literal for int()")
  | Some Directory => raise (OSError "Is a directory")
  | Some Unreadable => raise (OSError "Permission denied")
  | None => raise (FileNotFoundError "No such file or directory")
  end.

(** [Path(a) / b] *)
Definition joinpath (a b : string) : string := a +:+ "/" +:+ b.

Record SocketTopology : Type := {
  socket_count : Z;
  socket_to_cpus : gmap Z (list Z);
  cpu_to_socket : gmap Z Z
}.

Record PCMReading : Type := {
  socket_id : Z;
  package_energy_joules : Q;
  dram_energy_joules : Q;
  timestamp : Q
}.

(** The mutable attributes of a [PCMSocketMeter], and the log of the counter
    files it has read so far (most recent first). *)
Record MeterState : Type := {
  topology : option SocketTopology;
  _setup_complete : bool;
  _last_reading_cache : gmap Z PCMReading;
  _cache_timestamp : Q;
  rapl_reads : list string
}.

Definition _cache_max_age : Q := 1 # 10.

(** [PCMSocketMeter.__init__] *)
Definition new : MeterState :=
  {| topology := None;
     _setup_complete := false;
     _last_reading_cache := ∅;
     _cache_timestamp := 0;
     rapl_reads := [] |}.

Definition set_cache (c : gmap Z PCMReading) (st : MeterState) : MeterState :=
  {| topology := topology st;
     _setup_complete := _setup_complete st;
     _last_reading_cache := c;
     _cache_timestamp := _cache_timestamp st;
     rapl_reads := rapl_reads st |}.

Definition set_cache_timestamp (t : Q) (st : MeterState) : MeterState :=
  {| topology := topology st;
     _setup_complete := _setup_complete st;
     _last_reading_cache := _last_reading_cache st;
     _cache_timestamp := t;
     rapl_reads := rapl_reads st |}.

Definition set_topology (t : option SocketTopology) (st : MeterState) : MeterState :=
  {| topology := t;
     _setup_complete := _setup_complete st;
     _last_reading_cache := _last_reading_cache st;
     _cache_timestamp := _cache_timestamp st;
     rapl_reads := rapl_reads st |}.

Definition set_setup_complete (b : bool) (st : MeterState) : MeterState :=
  {| topology := topology st;
     _setup_complete := b;
     _last_reading_cache := _last_reading_cache st;
     _cache_timestamp := _cache_timestamp st;
     rapl_reads := rapl_reads st |}.

Definition log_read (path : string) (st : MeterState) : MeterState :=
  {| topology := topology st;
     _setup_complete := _setup_complete st;
     _last_reading_cache := _last_reading_cache st;
     _cache_timestamp := _cache_timestamp st;
     rapl_reads := path :: rapl_reads st |}.

(** [if socket_id in self._last_reading_cache: del ...] *)
Definition invalidate (sid : Z) (st : MeterState) : MeterState :=
  set_cache (delete sid (_last_reading_cache st)) st.

Definition rapl_base : string := "/sys/class/powercap/intel-rapl".

(** [rapl_base / f"intel-rapl:{socket_id}"] *)
Definition rapl_socket_dir (sid : Z) : string :=
  joinpath rapl_base ("intel-rapl:" +:+ pretty sid).

(** [rapl_socket / "energy_uj"] *)
Definition package_energy_file (sid : Z) : string :=
  joinpath (rapl_socket_dir sid) "energy_uj".

(** [rapl_socket / "intel-rapl:0:0" / "energy_uj"] *)
Definition dram_energy_file (sid : Z) : string :=
  joinpath (joinpath (rapl_socket_dir sid) "intel-rapl:0:0") "energy_uj".

(** [energy_uj / 1_000_000.0] *)
Definition joules_of_uj (uj : Z) : Q := inject_Z uj / inject_Z 1000000.

(** The [try] body of [_read_socket_energy], before the handler for
    [OSError] and [ValueError]. *)
Definition read_counters (fs : gmap string node) (now : Q) (sid : Z)
  : M MeterState PCMReading :=
  let energy_file := package_energy_file sid in
  if negb (exists_ fs energy_file) then
    mraise (EnergyMeterError ("Energy counter not found: " +:+ energy_file))
  else
    let! energy_uj := (fun st => (read_int fs energy_file, log_read energy_file st)) in
    let package_joules := joules_of_uj energy_uj in
    let dram_file := dram_energy_file sid in
    let! dram_joules :=
      (if exists_ fs dram_file then
         let! dram_uj := (fun st => (read_int fs dram_file, log_read dram_file st)) in
         mret (joules_of_uj dram_uj)
       else mret 0%Q) in
    let reading :=
      {| socket_id := sid;
         package_energy_joules := package_joules;
         dram_energy_joules := dram_joules;
         timestamp := now |} in
    fun st =>
      (inr reading,
       set_cache_timestamp now (set_cache (<[sid := reading]> (_last_reading_cache st)) st)).

(** [PCMSocketMeter._read_socket_energy]; [now] is what [time.time()]
    returns. *)
Definition _read_socket_energy (fs : gmap string node) (now : Q) (sid : Z)
  : M MeterState PCMReading :=
  fun st =>
    match (match _last_reading_cache st !! sid with
           | Some cached =>
               if flt (now - _cache_timestamp st) _cache_max_age
               then Some cached else None
           | None => None
           end) with
    | Some cached => (inr cached, st)
    | None =>
        if negb (exists_ fs (rapl_socket_dir sid)) then
          (inl (EnergyMeterError
                  ("RAPL interface not found for socket " +:+ pretty sid)), st)
        else
          match read_counters fs now sid st with
          | (inl e, st') =>
              if is_OSError e || is_ValueError e then
                (inl (EnergyMeterError ("Failed to read RAPL counters: " +:+ str e)), st')
              else (inl e, st')
          | (inr reading, st') => (inr reading, st')
          end
    end.

(** [PCMSocketMeter.get_socket_energy] *)
Definition get_socket_energy (fs : gmap string node) (now : Q) (sid : Z)
  : M MeterState Q :=
  let! reading := _read_socket_energy fs now sid in
  mret (package_energy_joules reading).

(** [PCMSocketMeter.get_cpu_socket] *)
Definition get_cpu_socket (cpu_id : Z) : M MeterState Z :=
  fun st =>
    match topology st with
    | None => (inl (EnergyMeterError "Topology not initialized"), st)
    | Some t =>
        match cpu_to_socket t !! cpu_id with
        | None =>
            (inl (ValueError ("CPU " +:+ pretty cpu_id +:+ " not found in topology")), st)
        | Some s => (inr s, st)
        end
    end.

(** What the host answers while the meter is set up: the result of
    [_detect_socket_topology], the sysfs tree and [time.time()]. *)
Record SetupEnv : Type := {
  detected_topology : Exc SocketTopology;
  setup_fs : gmap string node;
  setup_now : Q
}.

(** [PCMSocketMeter.is_available] *)
Definition is_available (env : SetupEnv) : MeterState -> bool * MeterState :=
  fun st =>
    match detected_topology env with
    | inl _ => (false, st)
    | inr t =>
        if socket_count t =? 0 then (false, st)
        else
          let st1 := set_topology (Some t) st in
          let rapl_socket0 := joinpath (joinpath rapl_base "intel-rapl:0") "energy_uj" in
          if negb (exists_ (setup_fs env) rapl_socket0) then (false, st1)
          else
            match setup_fs env !! rapl_socket0 with
            | Some (Counter _) | Some Garbled => (true, log_read rapl_socket0 st1)
            | _ => (false, st1)
            end
    end.

(** The test reads of [setup]: [for socket_id in range(socket_count)]. *)
Fixpoint test_readings (env : SetupEnv) (sockets : list Z) : M MeterState unit :=
  match sockets with
  | [] => mret tt
  | sid :: rest =>
      let! _ := _read_socket_energy (setup_fs env) (setup_now env) sid in
      test_readings env rest
  end.

(** [PCMSocketMeter.setup] *)
Definition setup (env : SetupEnv) : M MeterState unit :=
  fun st =>
    if _setup_complete st then (inr tt, st)
    else
      let (available, st1) := is_available env st in
      if negb available then
        (inl (EnergyMeterNotAvailableError
                "PCM (per-socket RAPL) not available via sysfs"), st1)
      else
        match topology st1 with
        | None =>
            (inl (EnergyMeterNotAvailableError
                    "Could not detect CPU socket topology"), st1)
        | Some t =>
            if socket_count t =? 0 then
              (inl (EnergyMeterNotAvailableError
                      "Could not detect CPU socket topology"), st1)
            else
              match test_readings env (range (socket_count t)) st1 with
              | (inl e, st2) =>
                  (inl (EnergyMeterNotAvailableError
                          ("Failed to read PCM energy counters: " +:+ str e)), st2)
              | (inr _, st2) => (inr tt, set_setup_complete true st2)
              end
        end.

(** [PCMSocketMeter.cleanup] *)
Definition cleanup (st : MeterState) : MeterState :=
  set_cache ∅ (set_setup_complete false st).

(** The rollover fix-up of [_measure_single_trial]:
    [if package_energy < 0: package_energy += (2**32 / 1_000_000.0)]. *)
Definition fix_rollover (delta : Q) : Q :=
  if flt delta 0 then (delta + rollover_joules)%Q else delta.

(** The energy deltas [_measure_single_trial] reports for a pair of
    readings: package and DRAM. *)
Definition trial_deltas (energy_before energy_after : PCMReading) : Q * Q :=
  let package_energy :=
    (package_energy_joules energy_after - package_energy_joules energy_before)%Q in
  let dram_energy :=
    (dram_energy_joules energy_after - dram_energy_joules energy_before)%Q in
  (fix_rollover package_energy, fix_rollover dram_energy).

(** A value a meter method hands back to a dynamically typed caller. *)
Inductive pyval : Type :=
| VNone
| VBool (b : bool)
| VInt (z : Z)
| VFloat (q : Q)
| VReading (r : PCMReading).

(** A bound method called with one positional argument. *)
Definition method : Type := gmap string node -> Q -> Z -> M MeterState pyval.

Definition arity_error (name : string) : method :=
  fun _ _ _ => mraise (TypeError (name +:+ "() takes 1 positional argument but 2 were given")).

(** Attribute lookup for a call [meter.<name>(arg)] on a [PCMSocketMeter]:
    the methods the class body and its base class [EnergyMeter] define.
    Any other name raises [AttributeError]. *)
Definition getattr (name : string) : Exc method :=
  if String.eqb name "_read_socket_energy" then
    ret (fun fs now sid => let! r := _read_socket_energy fs now sid in mret (VReading r))
  else if String.eqb name "get_socket_energy" then
    ret (fun fs now sid => let! e := get_socket_energy fs now sid in mret (VFloat e))
  else if String.eqb name "get_cpu_socket" then
    ret (fun _ _ cpu => let! s := get_cpu_socket cpu in mret (VInt s))
  else if existsb (String.eqb name)
            ["_find_pcm_binary"; "_detect_socket_topology"; "_check_pcm_permissions";
             "is_available"; "setup"; "cleanup"; "get_environment_info";
             "validate_setup"; "get_meter_info"] then
    ret (arity_error name)
  else if existsb (String.eqb name)
            ["_create_measurement_script"; "_measure_single_trial"; "measure_execution"] then
    ret (fun _ _ _ =>
           mraise (TypeError (name +:+ "() missing required positional arguments")))
  else if existsb (String.eqb name)
            ["use_sudo"; "pcm_timeout"; "pcm_path"; "topology"; "_setup_complete";
             "_last_reading_cache"; "_cache_timestamp"; "_cache_max_age";
             "capabilities"] then
    ret (fun _ _ _ => mraise (TypeError ("'" +:+ name +:+ "' attribute is not callable")))
  else
    raise (AttributeError
             ("'PCMSocketMeter' object has no attribute '" +:+ name +:+ "'")).

(** The message of the [AttributeError] for [get_socket_reading]. *)
Definition no_get_socket_reading : string :=
  "'PCMSocketMeter' object has no attribute 'get_socket_reading'".

End pcm_socket_meter.

(** ** jouletrace/core/socket_executor.py *)

Module socket_executor.
Import py.

Record ExecutionResult : Type := {
  net_energy_joules : Q;
  raw_energy_joules : Q;
  baseline_energy_joules : Q;
  execution_time_seconds : Q;
  trial_number : Z;
  cpu_core : Z;
  timestamp : string;
  success : bool;
  error_message : option string;
  package_net_energy_joules : Q;
  dram_energy_joules : Q
}.

(** The result every failing path of [execute_single_trial] builds. *)
Definition failed_result (trial core : Z) (now_iso message : string) : ExecutionResult :=
  {| net_energy_joules := 0;
     raw_energy_joules := 0;
     baseline_energy_joules := 0;
     execution_time_seconds := 0;
     trial_number := trial;
     cpu_core := core;
     timestamp := now_iso;
     success := false;
     error_message := Some message;
     package_net_energy_joules := 0;
     dram_energy_joules := 0 |}.

(** The result the successful path of [execute_single_trial] builds. *)
Definition successful_result (trial core : Z) (now_iso : string)
    (total_net pkg_raw baseline_energy execution_time package_net dram_raw : Q)
  : ExecutionResult :=
  {| net_energy_joules := total_net;
     raw_energy_joules := pkg_raw;
     baseline_energy_joules := baseline_energy;
     execution_time_seconds := execution_time;
     trial_number := trial;
     cpu_core := core;
     timestamp := now_iso;
     success := true;
     error_message := None;
     package_net_energy_joules := package_net;
     dram_energy_joules := dram_raw |}.

(** An ISO 8601 string, represented by what [datetime.fromisoformat] makes of
    it: a [ValueError], or a naive instant in microseconds. *)
Inductive isostring : Type :=
| NotIso (text : string)
| Iso (us : Z).

(** The calibration file as [json.load] returns it. A key that
    [data.get] would default is optional. *)
Record CalibrationData : Type := {
  json_idle_power_watts : option Q;
  json_timestamp : option isostring;
  json_cv_percent : option Q;
  json_valid_until_days : option Z
}.

Inductive config_file : Type :=
| Absent
| Malformed (e : exn)
| Json (data : CalibrationData).

Definition newline : string := String (Ascii.ascii_of_nat 10) EmptyString.

Definition us_per_day : Z := 86400 * 1000000.

Module CalibrationProfile.

Record t : Type := {
  config_path : string;
  idle_power_watts : option Q;
  timestamp : option isostring;
  cv_percent : option Q;
  valid_until_days : Z
}.

(** [CalibrationProfile.__init__] *)
Definition new (path : string) : t :=
  {| config_path := path;
     idle_power_watts := None;
     timestamp := None;
     cv_percent := None;
     valid_until_days := 7 |}.

(** [CalibrationProfile.load] *)
Definition load (file : config_file) : M t unit :=
  fun self =>
    match file with
    | Absent =>
        (inl (FileNotFoundError
                ("Calibration profile not found: " +:+ config_path self +:+ newline
                 +:+ "Run: sudo python3 scripts/calibrate_socket0.py")), self)
    | Malformed e => (inl e, self)
    | Json data =>
        (inr tt,
         {| config_path := config_path self;
            idle_power_watts := json_idle_power_watts data;
            timestamp := json_timestamp data;
            cv_percent := Some (default 0%Q (json_cv_percent data));
            valid_until_days := default 7 (json_valid_until_days data) |})
    end.

(** [CalibrationProfile.is_valid]; [now_us] is [datetime.now()]. *)
Definition is_valid (now_us : Z) (self : t) : bool * string :=
  if negb (truthy_float (idle_power_watts self)) then
    (false, "Calibration not loaded")
  else
    match timestamp self with
    | None | Some (NotIso "") => (false, "Calibration timestamp missing")
    | Some (NotIso _) => (false, "Invalid timestamp format")
    | Some (Iso cal_time) =>
        let age := now_us - cal_time in
        if age >? valid_until_days self * us_per_day then
          (false,
           "Calibration expired (" +:+ pretty (age / us_per_day) +:+ " days old, max "
           +:+ pretty (valid_until_days self) +:+ ")")
        else (true, "Valid")
    end.

(** [CalibrationProfile.get_baseline_energy] *)
Definition get_baseline_energy (duration_seconds : Q) (self : t) : Exc Q :=
  match idle_power_watts self with
  | Some watts =>
      if truthy_float (Some watts) then ret (watts * duration_seconds)%Q
      else raise (RuntimeError "Calibration not loaded")
  | None => raise (RuntimeError "Calibration not loaded")
  end.

End CalibrationProfile.

(** The outcome of [subprocess.run]. *)
Inductive subprocess_outcome : Type :=
| Completed (returncode : Z) (stderr : string)
| TimedOut
| SpawnFailed (e : exn).

(** What the host answers during [SocketExecutor.setup]. *)
Record SetupEnv : Type := {
  meter_env : pcm_socket_meter.SetupEnv;
  calibration_file : config_file;
  setup_datetime_now : Z
}.

(** What the host answers during one call of [execute_single_trial]. *)
Record TrialEnv : Type := {
  lazy_setup : SetupEnv;
  (** the count [ps | grep | wc -l] prints, or why it could not be had *)
  ps_count : string + Z;
  tempfile : Exc string;
  fs_before : gmap string pcm_socket_meter.node;
  time_before_read : Q;
  perf_counter_before : Q;
  child : subprocess_outcome;
  perf_counter_after : Q;
  fs_after : gmap string pcm_socket_meter.node;
  time_after_read : Q;
  datetime_now_iso : string
}.

Module SocketExecutor.

(** The executor object. Its meter is an object whose class resolves method
    names ([meter_getattr]) and whose attributes are [meter]. *)
Record t : Type := {
  socket_id : Z;
  cpu_core : Z;
  timeout_seconds : Z;
  meter_getattr : string -> Exc pcm_socket_meter.method;
  meter : pcm_socket_meter.MeterState;
  calibration : CalibrationProfile.t;
  _initialized : bool
}.

(** [SocketExecutor.__init__]: the meter is a fresh [PCMSocketMeter()]. *)
Definition new (socket core timeout : Z) (calibration_path : string) : t :=
  {| socket_id := socket;
     cpu_core := core;
     timeout_seconds := timeout;
     meter_getattr := pcm_socket_meter.getattr;
     meter := pcm_socket_meter.new;
     calibration := CalibrationProfile.new calibration_path;
     _initialized := false |}.

Definition set_meter (m : pcm_socket_meter.MeterState) (self : t) : t :=
  {| socket_id := socket_id self;
     cpu_core := cpu_core self;
     timeout_seconds := timeout_seconds self;
     meter_getattr := meter_getattr self;
     meter := m;
     calibration := calibration self;
     _initialized := _initialized self |}.

Definition set_calibration (c : CalibrationProfile.t) (self : t) : t :=
  {| socket_id := socket_id self;
     cpu_core := cpu_core self;
     timeout_seconds := timeout_seconds self;
     meter_getattr := meter_getattr self;
     meter := meter self;
     calibration := c;
     _initialized := _initialized self |}.

Definition set_initialized (b : bool) (self : t) : t :=
  {| socket_id := socket_id self;
     cpu_core := cpu_core self;
     timeout_seconds := timeout_seconds self;
     meter_getattr := meter_getattr self;
     meter := meter self;
     calibration := calibration self;
     _initialized := b |}.

(** Run a computation of the meter on [self.meter]. *)
Definition on_meter {A : Type} (m : M pcm_socket_meter.MeterState A) : M t A :=
  fun self => let (r, st) := m (meter self) in (r, set_meter st self).

(** Run a computation of the profile on [self.calibration]. *)
Definition on_calibration {A : Type} (m : M CalibrationProfile.t A) : M t A :=
  fun self => let (r, c) := m (calibration self) in (r, set_calibration c self).

(** [SocketExecutor.setup] *)
Definition setup (env : SetupEnv) : M t unit :=
  fun self =>
    if _initialized self then (inr tt, self)
    else
      (let! _ := on_meter (pcm_socket_meter.setup (meter_env env)) in
       let! _ := on_calibration (CalibrationProfile.load (calibration_file env)) in
       fun self' =>
         let (is_valid, reason) :=
           CalibrationProfile.is_valid (setup_datetime_now env) (calibration self') in
         if negb is_valid then
           (inl (RuntimeError
                   ("Calibration invalid: " +:+ reason +:+ newline
                    +:+ "Run: sudo python3 scripts/calibrate_socket0.py")), self')
         else (inr tt, set_initialized true self')) self.

(** [SocketExecutor.cleanup] *)
Definition cleanup (self : t) : t :=
  if _initialized self then
    set_initialized false (set_meter (pcm_socket_meter.cleanup (meter self)) self)
  else self.

(** [SocketExecutor._verify_socket_idle] *)
Definition _verify_socket_idle (ps : string + Z) (self : t) : bool * string :=
  match ps with
  | inl why => (false, "Failed to verify: " +:+ why)
  | inr process_count =>
      if process_count >? 0 then
        (false, "Socket " +:+ pretty (socket_id self) +:+ " has "
                +:+ pretty process_count +:+ " processes")
      else (true, "Socket idle")
  end.

(** [self.meter.get_socket_reading(self.socket_id)] *)
Definition call_get_socket_reading (fs : gmap string pcm_socket_meter.node) (now : Q)
  : M t pcm_socket_meter.pyval :=
  fun self =>
    match meter_getattr self "get_socket_reading" with
    | inl e => (inl e, self)
    | inr bound => on_meter (bound fs now (socket_id self)) self
    end.

(** The attribute accesses [reading.package_energy_joules] and
    [reading.dram_energy_joules] on what the meter returned. *)
Definition reading_attributes (v : pcm_socket_meter.pyval) : Exc pcm_socket_meter.PCMReading :=
  match v with
  | pcm_socket_meter.VReading r => ret r
  | _ => raise (AttributeError "object has no attribute 'package_energy_joules'")
  end.

(** [subprocess.run(cmd, capture_output=True, text=True, timeout=...)] *)
Definition subprocess_run (child_outcome : subprocess_outcome) (self : t) : Exc (Z * string) :=
  match child_outcome with
  | Completed returncode stderr => ret (returncode, stderr)
  | TimedOut =>
      raise (TimeoutExpired ("timed out after " +:+ pretty (timeout_seconds self)
                             +:+ " seconds"))
  | SpawnFailed e => raise e
  end.

(** The rollover fix-up: [if pkg_raw < 0: pkg_raw += (2**32 / 1_000_000.0)]. *)
Definition fix_rollover (raw : Q) : Q :=
  if flt raw 0 then (raw + pcm_socket_meter.rollover_joules)%Q else raw.

(** The energy accounting of a trial whose child exited with status 0: from
    the two readings and the wall duration to the result. *)
Definition account (trial : Z) (now_iso : string)
    (reading_before reading_after : pcm_socket_meter.PCMReading) (wall_time : Q)
    (self : t) : Exc ExecutionResult :=
  let execution_time := wall_time in
  let pkg_raw :=
    (pcm_socket_meter.package_energy_joules reading_after
     - pcm_socket_meter.package_energy_joules reading_before)%Q in
  let dram_raw :=
    (pcm_socket_meter.dram_energy_joules reading_after
     - pcm_socket_meter.dram_energy_joules reading_before)%Q in
  let pkg_raw := fix_rollover pkg_raw in
  let dram_raw := fix_rollover dram_raw in
  match CalibrationProfile.get_baseline_energy execution_time (calibration self) with
  | inl e => inl e
  | inr baseline_energy =>
      let package_net := max 0 (pkg_raw - baseline_energy) in
      let total_net := (package_net + max 0 dram_raw)%Q in
      ret (successful_result trial (cpu_core self) now_iso
             total_net pkg_raw baseline_energy execution_time package_net dram_raw)
  end.

(** The [try] block of [execute_single_trial]. *)
Definition measured_run (env : TrialEnv) (trial : Z) : M t ExecutionResult :=
  let! _ := (fun self =>
               (inr tt, set_meter (pcm_socket_meter.invalidate (socket_id self) (meter self)) self)) in
  let! before := call_get_socket_reading (fs_before env) (time_before_read env) in
  let time_before := perf_counter_before env in
  let! result := (fun self => (subprocess_run (child env) self, self)) in
  let time_after := perf_counter_after env in
  let wall_time := (time_after - time_before)%Q in
  let! _ := (fun self =>
               (inr tt, set_meter (pcm_socket_meter.invalidate (socket_id self) (meter self)) self)) in
  let! after := call_get_socket_reading (fs_after env) (time_after_read env) in
  let (returncode, stderr) := result : Z * string in
  if negb (returncode =? 0) then
    let error_msg := if String.eqb stderr "" then "Unknown error" else stderr in
    fun self =>
      (inr (failed_result trial (cpu_core self) (datetime_now_iso env)
              ("Execution failed: " +:+ error_msg)), self)
  else
    fun self =>
      (match reading_attributes after with
       | inl e => inl e
       | inr reading_after =>
           match reading_attributes before with
           | inl e => inl e
           | inr reading_before =>
               account trial (datetime_now_iso env) reading_before reading_after
                 wall_time self
           end
       end, self).

(** [SocketExecutor.execute_single_trial] *)
Definition execute_single_trial (env : TrialEnv) (trial : Z) (verify_idle : bool)
  : M t ExecutionResult :=
  let! _ := (fun self =>
               if _initialized self then (inr tt, self) else setup (lazy_setup env) self) in
  fun self =>
    let not_idle :=
      if verify_idle then
        let (is_idle, message) := _verify_socket_idle (ps_count env) self in
        if negb is_idle then Some message else None
      else None in
    match not_idle with
    | Some message =>
        (inr (failed_result trial (cpu_core self) (datetime_now_iso env)
                ("Socket not idle: " +:+ message)), self)
    | None =>
        match tempfile env with
        | inl e => (inl e, self)
        | inr script_path =>
            match measured_run env trial self with
            | (inr result, self') => (inr result, self')
            | (inl e, self') =>
                if is_TimeoutExpired e then
                  (inr (failed_result trial (cpu_core self') (datetime_now_iso env)
                          ("Execution timeout (" +:+ pretty (timeout_seconds self') +:+ "s)")),
                   self')
                else
                  (inr (failed_result trial (cpu_core self') (datetime_now_iso env)
                          ("Unexpected error: " +:+ str e)), self')
            end
        end
    end.

End SocketExecutor.

End socket_executor.

(** ** The standard module [statistics], as far as the aggregator uses it *)

Module statistics.
Import py.

Definition fsum (xs : list Q) : Q := fold_right Qplus 0%Q xs.

(** [statistics.mean] *)
Definition mean (data : list Q) : Exc Q :=
  match data with
  | [] => raise (StatisticsError "mean requires at least one data point")
  | _ => fdiv (fsum data) (inject_Z (len data))
  end.

Fixpoint insert_sorted (x : Q) (xs : list Q) : list Q :=
  match xs with
  | [] => [x]
  | y :: ys => if fle x y then x :: y :: ys else y :: insert_sorted x ys
  end.

(** [sorted(data)] *)
Definition sorted (data : list Q) : list Q := fold_right insert_sorted [] data.

(** [statistics.median] *)
Definition median (data : list Q) : Exc Q :=
  let data := sorted data in
  let n := List.length data in
  if Nat.eqb n 0 then raise (StatisticsError "no median for empty data")
  else if Nat.odd n then ret (nth (n / 2) data 0%Q)
  else
    let i := (n / 2)%nat in
    ret ((nth (i - 1) data 0%Q + nth i data 0%Q) / inject_Z 2)%Q.

(** The sum of squared deviations from the mean [c]. *)
Definition sum_sq_dev (c : Q) (data : list Q) : Q :=
  fsum (List.map (fun x => (x - c) * (x - c))%Q data).

(** [statistics.variance]: the sample variance. *)
Definition variance (data : list Q) : Exc Q :=
  if len data <? 2 then
    raise (StatisticsError "variance requires at least two data points")
  else
    match mean data with
    | inl e => inl e
    | inr xbar => fdiv (sum_sq_dev xbar data) (inject_Z (len data - 1))
    end.

(** [statistics.stdev]: the square root of the sample variance. *)
Definition stdev (math_sqrt : Q -> Q) (data : list Q) : Exc Q :=
  match variance data with
  | inl e => inl e
  | inr var => ret (math_sqrt var)
  end.

End statistics.

(** ** jouletrace/core/statistical_aggregator.py *)

Module statistical_aggregator.
Import py.
Import socket_executor.

(** The two messages [_should_stop_early] formats, with the values it
    interpolates: "Achieved target CV=..% < ..%" and
    "Reached max trials (..)". *)
Inductive reason : Type :=
| AchievedTargetCV (cv target : Q)
| ReachedMaxTrials (max_trials : Z).

Record AggregatedResult : Type := {
  median_energy_joules : Q;
  mean_energy_joules : Q;
  stddev_energy_joules : Q;
  cv_percent : Q;
  median_pkg_energy_joules : Q;
  median_dram_energy_joules : Q;
  median_time_seconds : Q;
  mean_time_seconds : Q;
  median_power_watts : Q;
  mean_power_watts : Q;
  successful_trials : Z;
  failed_trials : Z;
  total_trials : Z;
  trial_energies : list Q;
  trial_times : list Q;
  confidence_level : string;
  early_stop : bool;
  early_stop_reason : option reason
}.

(** The local variables of the trial loop of [aggregate_measurements];
    [trial] is the loop variable, unbound before the first iteration. *)
Record locals : Type := {
  successful_results : list ExecutionResult;
  failed_count : Z;
  early_stopped : bool;
  stop_reason : option reason;
  trial : option Z
}.

Definition initial_locals : locals :=
  {| successful_results := [];
     failed_count := 0;
     early_stopped := false;
     stop_reason := None;
     trial := None |}.

Module StatisticalAggregator.

Record t : Type := {
  min_trials : Z;
  max_trials : Z;
  target_cv_percent : Q;
  early_stop_enabled : bool;
  cooldown_seconds : Q;
  min_trial_wall_time_seconds : Q
}.

(** [StatisticalAggregator.__init__] with its default arguments. *)
Definition default : t :=
  {| min_trials := 3;
     max_trials := 20;
     target_cv_percent := 5;
     early_stop_enabled := true;
     cooldown_seconds := 1 # 2;
     min_trial_wall_time_seconds := 1 # 10 |}.

Section Methods.

Variable math_sqrt : Q -> Q.

(** [StatisticalAggregator._calculate_cv] *)
Definition _calculate_cv (values : list Q) : Exc Q :=
  if len values <? 2 then ret 0%Q
  else
    match statistics.mean values with
    | inl e => inl e
    | inr mean =>
        if feq mean 0 then ret 0%Q
        else
          match statistics.stdev math_sqrt values with
          | inl e => inl e
          | inr stddev =>
              match fdiv stddev mean with
              | inl e => inl e
              | inr ratio => ret (ratio * 100)%Q
              end
          end
    end.

(** [StatisticalAggregator._assess_confidence] *)
Definition _assess_confidence (cv_percent : Q) (n_trials : Z) (self : t) : string :=
  if flt cv_percent 5 && (min_trials self <=? n_trials) then "high"
  else if flt cv_percent 10 && (min_trials self <=? n_trials) then "medium"
  else "low".

(** [StatisticalAggregator._should_stop_early] *)
Definition _should_stop_early (energies : list Q) (trial_num : Z) (self : t)
  : Exc (bool * option reason) :=
  if negb (early_stop_enabled self) then ret (false, None)
  else if trial_num <? min_trials self then ret (false, None)
  else
    match _calculate_cv energies with
    | inl e => inl e
    | inr cv =>
        if flt cv (target_cv_percent self) then
          ret (true, Some (AchievedTargetCV cv (target_cv_percent self)))
        else if trial_num <? max_trials self then ret (false, None)
        else ret (true, Some (ReachedMaxTrials (max_trials self)))
    end.

Section Loop.

(** The executor the aggregator drives: [S] is its state, and
    [execute_single_trial n] the call
    [self.executor.execute_single_trial(..., trial_number=n, verify_idle=True, ...)]. *)
Variable S : Type.
Variable execute_single_trial : Z -> M S ExecutionResult.

(** The body of [for trial in range(self.max_trials)], run over the
    remaining trial numbers; a [break] ends the recursion. *)
Fixpoint trial_loop (self : t) (trials : list Z) (l : locals) : M S locals :=
  match trials with
  | [] => mret l
  | n :: rest =>
      let! result := execute_single_trial n in
      if success result then
        let successful := (successful_results l ++ [result])%list in
        let l1 :=
          {| successful_results := successful;
             failed_count := failed_count l;
             early_stopped := early_stopped l;
             stop_reason := stop_reason l;
             trial := Some n |} in
        if min_trials self <=? len successful then
          let energies := List.map net_energy_joules successful in
          match _should_stop_early energies (len successful) self with
          | inl e => mraise e
          | inr (should_stop, why) =>
              if should_stop then
                mret {| successful_results := successful;
                        failed_count := failed_count l;
                        early_stopped := true;
                        stop_reason := why;
                        trial := Some n |}
              else trial_loop self rest l1
          end
        else trial_loop self rest l1
      else
        trial_loop self rest
          {| successful_results := successful_results l;
             failed_count := failed_count l + 1;
             early_stopped := early_stopped l;
             stop_reason := stop_reason l;
             trial := Some n |}
  end.

(** The statistics of [aggregate_measurements], computed once the loop has
    ended. *)
Definition summarize (self : t) (l : locals) : Exc AggregatedResult :=
  if len (successful_results l) =? 0 then raise (RuntimeError "All trials failed")
  else
    let energies := List.map net_energy_joules (successful_results l) in
    let pkg_energies := List.map package_net_energy_joules (successful_results l) in
    let dram_energies := List.map dram_energy_joules (successful_results l) in
    let times := List.map execution_time_seconds (successful_results l) in
    match statistics.median energies with inl e => inl e | inr median_energy =>
    match statistics.median pkg_energies with inl e => inl e | inr median_pkg =>
    match statistics.median dram_energies with inl e => inl e | inr median_dram =>
    match statistics.mean energies with inl e => inl e | inr mean_energy =>
    match (if 1 <? len energies then statistics.stdev math_sqrt energies else ret 0%Q)
    with inl e => inl e | inr stddev_energy =>
    match _calculate_cv energies with inl e => inl e | inr cv =>
    match statistics.median times with inl e => inl e | inr median_time =>
    match statistics.mean times with inl e => inl e | inr mean_time =>
    match (if flt 0 median_time then fdiv median_energy median_time else ret 0%Q)
    with inl e => inl e | inr median_power =>
    match (if flt 0 mean_time then fdiv mean_energy mean_time else ret 0%Q)
    with inl e => inl e | inr mean_power =>
    let confidence := _assess_confidence cv (len (successful_results l)) self in
    match trial l with
    | None => raise (UnboundLocalError "local variable 'trial' referenced before assignment")
    | Some last =>
        ret {| median_energy_joules := median_energy;
               mean_energy_joules := mean_energy;
               stddev_energy_joules := stddev_energy;
               cv_percent := cv;
               median_pkg_energy_joules := median_pkg;
               median_dram_energy_joules := median_dram;
               median_time_seconds := median_time;
               mean_time_seconds := mean_time;
               median_power_watts := median_power;
               mean_power_watts := mean_power;
               successful_trials := len (successful_results l);
               failed_trials := failed_count l;
               total_trials := last + 1;
               trial_energies := energies;
               trial_times := times;
               confidence_level := confidence;
               early_stop := early_stopped l;
               early_stop_reason := stop_reason l |}
    end end end end end end end end end end end.

(** [StatisticalAggregator.aggregate_measurements]; [executor_set] tells
    whether [setup(executor)] has been called. *)
Definition aggregate_measurements (executor_set : bool) (self : t) : M S AggregatedResult :=
  if negb executor_set then
    mraise (RuntimeError "Aggregator not initialized. Call setup() first.")
  else
    let! l := trial_loop self (range (max_trials self)) initial_locals in
    fun s => (summarize self l, s).

End Loop.
End Methods.
End StatisticalAggregator.
End statistical_aggregator.

(** ** jouletrace/api/socket_measurement_task.py *)

Module socket_measurement_task.
Import py.
Import socket_executor.
Import statistical_aggregator.

(** The lock backend: a key-value store whose keys carry an expiry instant,
    and the clock [time.time()] reads, both in milliseconds. Every
    [Socket0Lock] of every worker talks to the same store. *)
Record backend : Type := {
  db : gmap string (string * Z);
  clock : Z
}.

(** A key is present while its expiry instant lies ahead. *)
Definition present (key : string) (r : backend) : bool :=
  match db r !! key with
  | Some (_, expiry) => clock r <? expiry
  | None => false
  end.

(** [redis_client.set(key, value, nx=True, ex=seconds)] *)
Definition redis_set_nx_ex (key value : string) (seconds : Z) (r : backend)
  : bool * backend :=
  if present key r then (false, r)
  else (true, {| db := <[key := (value, clock r + seconds * 1000)]> (db r);
                 clock := clock r |}).

(** [redis_client.delete(key)] *)
Definition redis_delete (key : string) (r : backend) : backend :=
  {| db := delete key (db r); clock := clock r |}.

(** [time.sleep(seconds)], here in milliseconds. *)
Definition sleep_ms (ms : Z) (r : backend) : backend :=
  {| db := db r; clock := clock r + ms |}.

Module Socket0Lock.

Record t : Type := {
  lock_name : string;
  lock_timeout : Z
}.

(** [Socket0Lock.__init__] *)
Definition new (timeout : Z) : t :=
  {| lock_name := "jouletrace:socket0:lock"; lock_timeout := timeout |}.

(** [Socket0Lock.__init__] with its default [lock_timeout]. *)
Definition default : t := new 300.

(** The loop [while time.time() - start_time < timeout] of the blocking
    [acquire]; every turn that fails sleeps half a second. *)
Fixpoint poll (fuel : nat) (self : t) (start_time timeout : Z) (r : backend)
  : bool * backend :=
  match fuel with
  | O => (false, r)
  | S fuel' =>
      if clock r - start_time <? timeout * 1000 then
        let (acquired, r1) := redis_set_nx_ex (lock_name self) "locked" (lock_timeout self) r in
        if acquired then (true, r1)
        else poll fuel' self start_time timeout (sleep_ms 500 r1)
      else (false, r)
  end.

(** [Socket0Lock.acquire] *)
Definition acquire (blocking : bool) (timeout : Z) (self : t) (r : backend)
  : bool * backend :=
  if blocking then
    poll (Z.to_nat (2 * timeout) + 1) self (clock r) timeout r
  else
    redis_set_nx_ex (lock_name self) "locked" (lock_timeout self) r.

(** [Socket0Lock.release] *)
Definition release (self : t) (r : backend) : backend :=
  redis_delete (lock_name self) r.

(** [Socket0Lock.__enter__] *)
Definition __enter__ (self : t) : M backend unit :=
  fun r =>
    let (acquired, r1) := acquire true 60 self r in
    if negb acquired then (inl (RuntimeError "Failed to acquire Socket 0 lock"), r1)
    else (inr tt, r1).

(** [Socket0Lock.__exit__] *)
Definition __exit__ (self : t) (r : backend) : backend := release self r.

End Socket0Lock.

(** The record the external validator returns. *)
Record ValidationResult : Type := {
  is_correct : bool;
  passed_tests : Z;
  total_tests : Z;
  pass_rate : Q;
  summary : string
}.

(** The dictionary [_validate_solution] builds from it. *)
Record validation_dict : Type := {
  v_is_correct : bool;
  v_passed_tests : Z;
  v_total_tests : Z;
  v_pass_rate : Q;
  v_error_summary : option string
}.

(** The parsed request, as far as the task reads it. *)
Record JouleTraceMeasurementRequest : Type := {
  candidate_code : string;
  function_name : string;
  test_cases : list string;
  candidate_id : option string;
  problem_name : option string
}.

Record energy_metrics : Type := {
  median_package_energy_joules : Q;
  median_ram_energy_joules : Q;
  median_total_energy_joules : Q;
  median_execution_time_seconds : Q;
  energy_per_test_case_joules : Q;
  power_consumption_watts : Q;
  energy_efficiency_score : Q
}.

(** The three response dictionaries of the task. *)
Inductive response : Type :=
| ValidationOnly (request_id : string) (request : JouleTraceMeasurementRequest)
    (validation : validation_dict)
| Measured (request_id : string) (request : JouleTraceMeasurementRequest)
    (validation : validation_dict) (metrics : energy_metrics)
| Failed (request_id error_type error_message : string).

(** The ["status"] entry of a response. *)
Definition status (r : response) : string :=
  match r with
  | ValidationOnly _ _ _ => "validation_failed"
  | Measured _ _ _ _ => "completed"
  | Failed _ _ _ => "failed"
  end.

(** What a run of the task does to its surroundings, in order. *)
Inductive event : Type :=
| UpdateState (stage : string)
| ValidatorCalled
| LockAcquire (acquired : bool)
| LockRelease
| ExecutorSetup
| TrialStarted (n : Z)
| ExecutorCleanup.

(** The surroundings of a task: the lock backend, the worker's executor
    (with its meter and the log of counter reads), and the events so far. *)
Record world : Type := {
  redis : backend;
  executor : SocketExecutor.t;
  events : list event
}.

(** What the collaborators answer during one request. *)
Record TaskEnv : Type := {
  parsed : Exc JouleTraceMeasurementRequest;
  validator_answer : Exc ValidationResult;
  executor_setup : SetupEnv;
  trial_env : Z -> TrialEnv
}.

Definition emit (e : event) : M world unit :=
  fun w => (inr tt, {| redis := redis w; executor := executor w;
                       events := (events w ++ [e])%list |}).

Definition on_redis {A : Type} (m : M backend A) : M world A :=
  fun w => let (a, r) := m (redis w) in
           (a, {| redis := r; executor := executor w; events := events w |}).

Definition on_executor {A : Type} (m : M SocketExecutor.t A) : M world A :=
  fun w => let (a, x) := m (executor w) in
           (a, {| redis := redis w; executor := x; events := events w |}).

(** [self.update_state(state="STARTED", meta={"stage": stage, ...})] *)
Definition update_state (stage : string) : M world unit := emit (UpdateState stage).

(** [_validate_solution] *)
Definition _validate_solution (env : TaskEnv) : M world validation_dict :=
  let! _ := emit ValidatorCalled in
  fun w =>
    match validator_answer env with
    | inl e => (inl e, w)
    | inr validation_result =>
        (inr {| v_is_correct := is_correct validation_result;
                v_passed_tests := passed_tests validation_result;
                v_total_tests := total_tests validation_result;
                v_pass_rate := pass_rate validation_result;
                v_error_summary :=
                  if negb (is_correct validation_result)
                  then Some (summary validation_result) else None |}, w)
    end.

(** [_build_success_response], its energy block. *)
Definition build_energy_metrics (request : JouleTraceMeasurementRequest)
    (measurement_result : AggregatedResult) : Exc energy_metrics :=
  match (match test_cases request with
         | [] => ret (median_energy_joules measurement_result)
         | _ => fdiv (median_energy_joules measurement_result)
                  (inject_Z (len (test_cases request)))
         end) with
  | inl e => inl e
  | inr energy_per_test_case =>
      ret {| median_package_energy_joules := median_energy_joules measurement_result;
             median_ram_energy_joules := 0;
             median_total_energy_joules := median_energy_joules measurement_result;
             median_execution_time_seconds := median_time_seconds measurement_result;
             energy_per_test_case_joules := energy_per_test_case;
             power_consumption_watts := median_power_watts measurement_result;
             energy_efficiency_score := energy_per_test_case |}
  end.

Section Task.

Variable math_sqrt : Q -> Q.

(** The lock and the aggregator the task class creates lazily. *)
Definition task_lock : Socket0Lock.t := Socket0Lock.new 300.

Definition task_aggregator : StatisticalAggregator.t :=
  {| StatisticalAggregator.min_trials := 3;
     StatisticalAggregator.max_trials := 20;
     StatisticalAggregator.target_cv_percent := 5;
     StatisticalAggregator.early_stop_enabled := true;
     StatisticalAggregator.cooldown_seconds := 1 # 2;
     StatisticalAggregator.min_trial_wall_time_seconds := 1 # 10 |}.

(** One call [self.executor.execute_single_trial(...)] of the aggregator. *)
Definition run_trial (env : TaskEnv) (n : Z) : M world ExecutionResult :=
  let! _ := emit (TrialStarted n) in
  on_executor (SocketExecutor.execute_single_trial (trial_env env n) n true).

(** The body of [with self.lock:]. *)
Definition locked_section (env : TaskEnv) : M world AggregatedResult :=
  let! _ := update_state "energy_measurement" in
  let! _ := emit ExecutorSetup in
  let! _ := on_executor (SocketExecutor.setup (executor_setup env)) in
  let! measurement_result :=
    StatisticalAggregator.aggregate_measurements math_sqrt world (run_trial env)
      true task_aggregator in
  let! _ := emit ExecutorCleanup in
  let! _ := on_executor (fun x => (inr tt, SocketExecutor.cleanup x)) in
  mret measurement_result.

(** [with self.lock: ...]: enter, run the body, and release on the way out,
    also when the body raises. *)
Definition with_lock {A : Type} (body : M world A) : M world A :=
  fun w =>
    let (entered, r1) := Socket0Lock.__enter__ task_lock (redis w) in
    let w1 := {| redis := r1; executor := executor w;
                 events :=
                   (events w
                    ++ [LockAcquire (match entered with inl _ => false | inr _ => true end)])%list |} in
    match entered with
    | inl e => (inl e, w1)
    | inr _ =>
        let (result, w2) := body w1 in
        (result,
         {| redis := Socket0Lock.__exit__ task_lock (redis w2);
            executor := executor w2;
            events := (events w2 ++ [LockRelease])%list |})
    end.

(** The [try] block of [socket_measurement_task]. *)
Definition task_body (env : TaskEnv) (request_id : string) : M world response :=
  let! _ := update_state "initializing" in
  let! internal_request := (fun w => (parsed env, w)) in
  let! _ := update_state "validation" in
  let! validation_result := _validate_solution env in
  if negb (v_is_correct validation_result) then
    mret (ValidationOnly request_id internal_request validation_result)
  else
    let! _ := update_state "acquiring_socket0_lock" in
    let! measurement_result := with_lock (locked_section env) in
    let! _ := update_state "finalizing" in
    let! metrics := (fun w => (build_energy_metrics internal_request measurement_result, w)) in
    mret (Measured request_id internal_request validation_result metrics).

(** [socket_measurement_task]: the handler of [except Exception] releases
    the lock and answers with a failure. *)
Definition socket_measurement_task (env : TaskEnv) (request_id : string) (w : world)
  : response * world :=
  match task_body env request_id w with
  | (inr answer, w') => (answer, w')
  | (inl e, w') =>
      (Failed request_id (type_name e) (str e),
       {| redis := Socket0Lock.release task_lock (redis w');
          executor := executor w';
          events := (events w' ++ [LockRelease])%list |})
  end.

End Task.

End socket_measurement_task.

(** ** jouletrace/core/executor.py: the resource limits *)

Module executor.
Import py.















End executor.

(** ** jouletrace/energy/pcm_socket_meter.py: the meter's own trials *)

Module pcm_trials.
Import py.
Import pcm_socket_meter.

(** [EnergyMeasurement] of core/models.py, with the fields the meter
    fills in. *)
Record EnergyMeasurement : Type := {
  package_energy_joules : Q;
  ram_energy_joules : Q;
  execution_time_seconds : Q;
  trial_number : Z;
  cpu_core : Z;
  thermal_state : string
}.

(** [EnergyMeasurement.total_energy_joules] *)
Definition total_energy_joules (m : EnergyMeasurement) : Q :=
  (package_energy_joules m + ram_energy_joules m)%Q.

(** What the host answers during one [_measure_single_trial];
    [reported_time] is the value of the last line of the child's stderr
    that starts with "EXECUTION_TIME:" and parses as a float, if there is
    one. *)
Record TrialEnv : Type := {
  tempfile : Exc string;
  fs_before : gmap string node;
  time_before : Q;
  perf_counter_start : Q;
  child : socket_executor.subprocess_outcome;
  perf_counter_end : Q;
  fs_after : gmap string node;
  time_after : Q;
  reported_time : option Q
}.

(** [subprocess.run] inside the [try] of [_measure_single_trial], with the
    handlers for [TimeoutExpired] and [SubprocessError]. *)
Definition run_child (pcm_timeout : Z) (outcome : socket_executor.subprocess_outcome)
  : Exc (Z * string) :=
  match outcome with
  | socket_executor.Completed returncode stderr => ret (returncode, stderr)
  | socket_executor.TimedOut =>
      raise (EnergyMeterTimeoutError
               ("Execution timed out after " +:+ pretty pcm_timeout +:+ "s"))
  | socket_executor.SpawnFailed e =>
      match e with
      | TimeoutExpired _ =>
          raise (EnergyMeterTimeoutError
                   ("Execution timed out after " +:+ pretty pcm_timeout +:+ "s"))
      | SubprocessError m => raise (EnergyMeterError ("Subprocess error: " +:+ m))
      | _ => raise e
      end
  end.

(** [PCMSocketMeter._measure_single_trial] *)
Definition _measure_single_trial (pcm_timeout : Z) (env : TrialEnv) (core trial : Z)
  : M MeterState EnergyMeasurement :=
  let! socket := get_cpu_socket core in
  let! _ := (fun st => (match tempfile env with inl e => inl e | inr _ => inr tt end, st)) in
  let! _ := (fun st => (inr tt, invalidate socket st)) in
  let! energy_before := _read_socket_energy (fs_before env) (time_before env) socket in
  let! result := (fun st => (run_child pcm_timeout (child env), st)) in
  let wall_time := (perf_counter_end env - perf_counter_start env)%Q in
  let! _ := (fun st => (inr tt, invalidate socket st)) in
  let! energy_after := _read_socket_energy (fs_after env) (time_after env) socket in
  let (returncode, stderr) := result : Z * string in
  if negb (returncode =? 0) then
    mraise (EnergyMeterError ("Execution failed: " +:+ stderr))
  else
    let execution_time := default wall_time (reported_time env) in
    let (package_energy, dram_energy) := trial_deltas energy_before energy_after in
    mret {| package_energy_joules := package_energy;
            ram_energy_joules := dram_energy;
            execution_time_seconds := execution_time;
            trial_number := trial;
            cpu_core := core;
            thermal_state := "measured" |}.

(** The loop [for trial in range(trials)] of [measure_execution]: a trial
    that raises is logged and skipped. *)
Fixpoint measure_trials (pcm_timeout : Z) (envs : Z -> TrialEnv) (core : Z)
    (remaining : list Z) (measurements : list EnergyMeasurement)
  : MeterState -> list EnergyMeasurement * MeterState :=
  fun st =>
    match remaining with
    | [] => (measurements, st)
    | trial :: rest =>
        match _measure_single_trial pcm_timeout (envs trial) core trial st with
        | (inr measurement, st') =>
            measure_trials pcm_timeout envs core rest
              (measurements ++ [measurement])%list st'
        | (inl _, st') => measure_trials pcm_timeout envs core rest measurements st'
        end
    end.

(** [PCMSocketMeter.measure_execution] *)
Definition measure_execution (pcm_timeout : Z) (setup_env : SetupEnv)
    (envs : Z -> TrialEnv) (trials core : Z)
  : M MeterState (list EnergyMeasurement) :=
  let! _ := (fun st => if _setup_complete st then (inr tt, st) else setup setup_env st) in
  fun st =>
    let (measurements, st') := measure_trials pcm_timeout envs core (range trials) [] st in
    match measurements with
    | [] => (inl (EnergyMeterError "All measurement trials failed"), st')
    | _ => (inr measurements, st')
    end.

End pcm_trials.

(** ** jouletrace/core/models.py: the validator's record *)

Module models.
Import py.

Record ValidationResult : Type := {
  is_correct : bool;
  passed_tests : Z;
  total_tests : Z
}.

(** [ValidationResult.pass_rate] *)
Definition pass_rate (self : ValidationResult) : Exc Q :=
  if total_tests self =? 0 then ret 0%Q
  else
    match fdiv (inject_Z (passed_tests self)) (inject_Z (total_tests self)) with
    | inl e => inl e
    | inr ratio => ret (ratio * 100)%Q
    end.

(** [ValidationResult.summary] *)
Definition summary (self : ValidationResult) : string :=
  if is_correct self then "All " +:+ pretty (total_tests self) +:+ " tests passed"
  else "Failed " +:+ pretty (total_tests self - passed_tests self) +:+ "/"
       +:+ pretty (total_tests self) +:+ " tests".

End models.

(** ** Kinds of events of a task *)

Module trace.
Import socket_measurement_task.

(** The events during which the isolated socket is used. *)
Definition measuring (e : event) : bool :=
  match e with
  | ExecutorSetup | TrialStarted _ | ExecutorCleanup => true
  | _ => false
  end.

(** The events of the lock. *)
Definition locking (e : event) : bool :=
  match e with
  | LockAcquire _ | LockRelease => true
  | _ => false
  end.

End trace.

(** ** Concrete collaborators used to run the definitions *)

Module examples.
Import py.
Import socket_executor.

(** A square root that is exact on squares of rationals. *)
Definition exact_sqrt (q : Q) : Q :=
  let r := Qred q in Z.sqrt (Qnum r) # Pos.sqrt (Qden r).

(** A meter object patched to answer [get_socket_reading] with
    [_read_socket_energy]; every other name resolves as on the class. *)
Definition patched_getattr (name : string) : Exc pcm_socket_meter.method :=
  if String.eqb name "get_socket_reading"
  then pcm_socket_meter.getattr "_read_socket_energy"
  else pcm_socket_meter.getattr name.

(** A sysfs tree with socket 0 and its first child domain. *)
Definition sysfs (package_uj dram_uj : Z) : gmap string pcm_socket_meter.node :=
  <["/sys/class/powercap/intel-rapl/intel-rapl:0" := pcm_socket_meter.Directory]>
  (<["/sys/class/powercap/intel-rapl/intel-rapl:0/energy_uj" :=
       pcm_socket_meter.Counter package_uj]>
  (<["/sys/class/powercap/intel-rapl/intel-rapl:0/intel-rapl:0:0" :=
       pcm_socket_meter.Directory]>
  (<["/sys/class/powercap/intel-rapl/intel-rapl:0/intel-rapl:0:0/energy_uj" :=
       pcm_socket_meter.Counter dram_uj]> ∅))).

Definition one_socket : pcm_socket_meter.SocketTopology :=
  {| pcm_socket_meter.socket_count := 1;
     pcm_socket_meter.socket_to_cpus := {[ 0 := [0; 1; 2; 3; 4] ]};
     pcm_socket_meter.cpu_to_socket := {[ 4 := 0 ]} |}.

(** A calibration file written a day before [day 2]. *)
Definition day (n : Z) : Z := n * us_per_day.

Definition calibration_json (watts : Q) : config_file :=
  Json {| json_idle_power_watts := Some watts;
          json_timestamp := Some (Iso (day 1));
          json_cv_percent := Some (2 # 1)%Q;
          json_valid_until_days := None |}.

Definition setup_env (watts : Q) : SetupEnv :=
  {| meter_env :=
       {| pcm_socket_meter.detected_topology := inr one_socket;
          pcm_socket_meter.setup_fs := sysfs 1000000 1000000;
          pcm_socket_meter.setup_now := 100 |};
     calibration_file := calibration_json watts;
     setup_datetime_now := day 2 |}.

(** A trial whose child exits with status 0 after half a second, between
    the given counter values. *)
Definition trial_env (pkg0 dram0 pkg1 dram1 : Z) : TrialEnv :=
  {| lazy_setup := setup_env 10;
     ps_count := inr 0;
     tempfile := inr "/tmp/tmpabcd.py";
     fs_before := sysfs pkg0 dram0;
     time_before_read := 200;
     perf_counter_before := 7;
     child := Completed 0 "EXECUTION_TIME: 0.400000";
     perf_counter_after := 15 # 2;
     fs_after := sysfs pkg1 dram1;
     time_after_read := 201;
     datetime_now_iso := "2025-01-02T00:00:00" |}.

(** An initialized executor with the given idle power and meter class. *)
Definition ready_executor (getattr : string -> Exc pcm_socket_meter.method)
    (watts : option Q) : SocketExecutor.t :=
  {| SocketExecutor.socket_id := 0;
     SocketExecutor.cpu_core := 4;
     SocketExecutor.timeout_seconds := 30;
     SocketExecutor.meter_getattr := getattr;
     SocketExecutor.meter :=
       pcm_socket_meter.set_setup_complete true
         (pcm_socket_meter.set_topology (Some one_socket) pcm_socket_meter.new);
     SocketExecutor.calibration :=
       {| CalibrationProfile.config_path := "config/socket0_calibration.json";
          CalibrationProfile.idle_power_watts := watts;
          CalibrationProfile.timestamp := Some (Iso (day 1));
          CalibrationProfile.cv_percent := Some (2 # 1)%Q;
          CalibrationProfile.valid_until_days := 7 |};
     SocketExecutor._initialized := true |}.

(** A successful and a failed trial result, and an executor that answers
    trial [n] with the [n]-th result of a script. *)
Definition ok_trial (n : Z) (energy time : Q) : ExecutionResult :=
  successful_result n 4 "2025-01-02T00:00:00" energy energy 0 time energy 0.

Definition bad_trial (n : Z) : ExecutionResult :=
  failed_result n 4 "2025-01-02T00:00:00" "Execution failed: boom".

Definition scripted (results : list ExecutionResult) : Z -> M unit ExecutionResult :=
  fun n s => (inr (nth (Z.to_nat n) results (bad_trial n)), s).

(** An aggregator with the given bounds and the default target of 5%. *)
Definition aggregator (min max : Z) : statistical_aggregator.StatisticalAggregator.t :=
  {| statistical_aggregator.StatisticalAggregator.min_trials := min;
     statistical_aggregator.StatisticalAggregator.max_trials := max;
     statistical_aggregator.StatisticalAggregator.target_cv_percent := 5;
     statistical_aggregator.StatisticalAggregator.early_stop_enabled := true;
     statistical_aggregator.StatisticalAggregator.cooldown_seconds := 1 # 2;
     statistical_aggregator.StatisticalAggregator.min_trial_wall_time_seconds := 1 # 10 |}.



(** A sysfs tree with the package counters of sockets 0 and 1. *)
Definition sysfs_two_sockets (package0_uj package1_uj : Z)
  : gmap string pcm_socket_meter.node :=
  <["/sys/class/powercap/intel-rapl/intel-rapl:0" := pcm_socket_meter.Directory]>
  (<["/sys/class/powercap/intel-rapl/intel-rapl:0/energy_uj" :=
       pcm_socket_meter.Counter package0_uj]>
  (<["/sys/class/powercap/intel-rapl/intel-rapl:1" := pcm_socket_meter.Directory]>
  (<["/sys/class/powercap/intel-rapl/intel-rapl:1/energy_uj" :=
       pcm_socket_meter.Counter package1_uj]> ∅))).

(** A meter that has been set up on the one-socket host. *)
Definition ready_meter : pcm_socket_meter.MeterState :=
  pcm_socket_meter.set_setup_complete true
    (pcm_socket_meter.set_topology (Some one_socket) pcm_socket_meter.new).

(** A trial of the meter's own routine between the given package
    counters, whose child reports 0.4 s. *)
Definition meter_trial_env (pkg0 pkg1 : Z) : pcm_trials.TrialEnv :=
  {| pcm_trials.tempfile := inr "/tmp/tmpabcd.py";
     pcm_trials.fs_before := sysfs pkg0 5;
     pcm_trials.time_before := 200;
     pcm_trials.perf_counter_start := 7;
     pcm_trials.child := Completed 0 "EXECUTION_TIME: 0.4";
     pcm_trials.perf_counter_end := 15 # 2;
     pcm_trials.fs_after := sysfs pkg1 7;
     pcm_trials.time_after := 201;
     pcm_trials.reported_time := Some (2 # 5)%Q |}.

(** A request whose candidate fails both of its test cases, and a world
    in which nobody holds the lock. *)
Definition request : socket_measurement_task.JouleTraceMeasurementRequest :=
  {| socket_measurement_task.candidate_code := "def f(n): return n*3";
     socket_measurement_task.function_name := "f";
     socket_measurement_task.test_cases := ["5"; "10"];
     socket_measurement_task.candidate_id := None;
     socket_measurement_task.problem_name := None |}.

Definition verdict (correct : bool) : socket_measurement_task.ValidationResult :=
  {| socket_measurement_task.is_correct := correct;
     socket_measurement_task.passed_tests := if correct then 2 else 0;
     socket_measurement_task.total_tests := 2;
     socket_measurement_task.pass_rate := if correct then 1 else 0;
     socket_measurement_task.summary := if correct then "" else "0/2 tests passed" |}.

Definition task_env (correct : bool) : socket_measurement_task.TaskEnv :=
  {| socket_measurement_task.parsed := inr request;
     socket_measurement_task.validator_answer := inr (verdict correct);
     socket_measurement_task.executor_setup := setup_env 10;
     socket_measurement_task.trial_env := fun _ => trial_env 1000000 5 3000000 7 |}.

Definition free_world : socket_measurement_task.world :=
  {| socket_measurement_task.redis :=
       {| socket_measurement_task.db := ∅; socket_measurement_task.clock := 0 |};
     socket_measurement_task.executor :=
       SocketExecutor.new 0 4 30 "config/socket0_calibration.json";
     socket_measurement_task.events := [] |}.

End examples.

(** * Properties *)

(** ** Float comparisons and [max] *)

Lemma flt_true (a b : Q) : py.flt a b = true <-> (a < b)%Q.
Proof.
  unfold py.flt. rewrite negb_true_iff. split.
  - intros H. apply Qnot_le_lt. intros Hle.
    apply Qle_bool_iff in Hle. congruence.
  - intros H. destruct (Qle_bool b a) eqn:E; [|reflexivity].
    apply Qle_bool_iff in E. exfalso. revert E. apply Qlt_not_le. exact H.
Qed.

Lemma flt_false (a b : Q) : py.flt a b = false <-> (b <= a)%Q.
Proof.
  unfold py.flt. rewrite negb_false_iff. apply Qle_bool_iff.
Qed.

Lemma feq_true (a b : Q) : py.feq a b = true <-> (a == b)%Q.
Proof. unfold py.feq. apply Qeq_bool_iff. Qed.

Lemma feq_false (a b : Q) : py.feq a b = false <-> ~ (a == b)%Q.
Proof.
  unfold py.feq. split.
  - intros H Heq. apply Qeq_bool_iff in Heq. congruence.
  - intros H. destruct (Qeq_bool a b) eqn:E; [|reflexivity].
    apply Qeq_bool_iff in E. contradiction.
Qed.

Lemma max_zero_l (x : Q) : (py.max 0 x == Qmax 0 x)%Q.
Proof.
  unfold py.max. destruct (py.flt 0 x) eqn:E.
  - apply flt_true in E. symmetry. apply Q.max_r. apply Qlt_le_weak. exact E.
  - apply flt_false in E. symmetry. apply Q.max_l. exact E.
Qed.

Lemma max_zero_nonneg (x : Q) : (0 <= py.max 0 x)%Q.
Proof. rewrite max_zero_l. apply Q.le_max_l. Qed.

Lemma truthy_float_some (q : Q) : py.truthy_float (Some q) = true <-> ~ (q == 0)%Q.
Proof.
  unfold py.truthy_float. rewrite negb_true_iff. apply feq_false.
Qed.

(** ** The rollover fix-up *)




Lemma joules_of_uj_sign (a : Z) :
  (0 <= a)%Z -> (0 <= pcm_socket_meter.joules_of_uj a)%Q.
Proof.
  intros H. unfold pcm_socket_meter.joules_of_uj.
  apply Qle_shift_div_l; [reflexivity|].
  rewrite Qmult_0_l. unfold Qle, inject_Z. simpl. lia.
Qed.


(** ** The energy accounting of a trial *)

Section Accounting.
Import py socket_executor.








End Accounting.

(** ** A meter without [get_socket_reading] *)

Section MissingMethod.
Import py socket_executor statistical_aggregator.

Lemma getattr_get_socket_reading :
  pcm_socket_meter.getattr "get_socket_reading" = inl (AttributeError pcm_socket_meter.no_get_socket_reading).
Proof. reflexivity. Qed.

Lemma setup_keeps_class (env : SetupEnv) (self : SocketExecutor.t) :
  SocketExecutor.meter_getattr (snd (SocketExecutor.setup env self))
  = SocketExecutor.meter_getattr self.
Proof.
  unfold SocketExecutor.setup. destruct (SocketExecutor._initialized self); [reflexivity|].
  unfold mbind, SocketExecutor.on_meter, SocketExecutor.on_calibration.
  destruct (pcm_socket_meter.setup (meter_env env) (SocketExecutor.meter self)) as [[e|[]] st];
    [reflexivity|].
  cbn [SocketExecutor.calibration SocketExecutor.set_meter].
  destruct (CalibrationProfile.load (calibration_file env) (SocketExecutor.calibration self))
    as [[e|[]] c]; [reflexivity|].
  cbn [SocketExecutor.calibration SocketExecutor.set_calibration].
  destruct (CalibrationProfile.is_valid (setup_datetime_now env) c) as [[] reason];
    reflexivity.
Qed.

Lemma measured_run_missing (env : TrialEnv) (trial : Z) (self : SocketExecutor.t) :
  SocketExecutor.meter_getattr self = pcm_socket_meter.getattr ->
  SocketExecutor.measured_run env trial self
  = (inl (AttributeError pcm_socket_meter.no_get_socket_reading),
     SocketExecutor.set_meter
       (pcm_socket_meter.invalidate (SocketExecutor.socket_id self)
          (SocketExecutor.meter self)) self).
Proof.
  intros Hclass. unfold SocketExecutor.measured_run, mbind.
  unfold SocketExecutor.call_get_socket_reading at 1.
  cbn [SocketExecutor.meter_getattr SocketExecutor.set_meter].
  rewrite Hclass, getattr_get_socket_reading. reflexivity.
Qed.

Lemma setup_keeps_core (env : SetupEnv) (self : SocketExecutor.t) :
  SocketExecutor.cpu_core (snd (SocketExecutor.setup env self))
  = SocketExecutor.cpu_core self.
Proof.
  unfold SocketExecutor.setup. destruct (SocketExecutor._initialized self); [reflexivity|].
  unfold mbind, SocketExecutor.on_meter, SocketExecutor.on_calibration.
  destruct (pcm_socket_meter.setup (meter_env env) (SocketExecutor.meter self)) as [[e|[]] st];
    [reflexivity|].
  cbn [SocketExecutor.calibration SocketExecutor.set_meter].
  destruct (CalibrationProfile.load (calibration_file env) (SocketExecutor.calibration self))
    as [[e|[]] c]; [reflexivity|].
  cbn [SocketExecutor.calibration SocketExecutor.set_calibration].
  destruct (CalibrationProfile.is_valid (setup_datetime_now env) c) as [[] reason];
    reflexivity.
Qed.

(** The part of [execute_single_trial] after the lazy setup, on a meter of
    class [PCMSocketMeter]: the trial ends in one of the failing paths, or
    the temporary file cannot be created. *)
Lemma trial_on_pcm_meter (env : TrialEnv) (trial : Z) (verify_idle : bool)
    (self : SocketExecutor.t) :
  SocketExecutor.meter_getattr self = pcm_socket_meter.getattr ->
  SocketExecutor._initialized self = true ->
  match tempfile env with
  | inr _ =>
      exists message self',
        SocketExecutor.execute_single_trial env trial verify_idle self
        = (inr (failed_result trial (SocketExecutor.cpu_core self) (datetime_now_iso env)
                  message), self')
        /\ SocketExecutor.meter_getattr self' = pcm_socket_meter.getattr
        /\ SocketExecutor._initialized self' = true
  | inl e =>
      forall r, fst (SocketExecutor.execute_single_trial env trial verify_idle self) = inr r ->
        exists message,
          r = failed_result trial (SocketExecutor.cpu_core self) (datetime_now_iso env) message
  end.
Proof.
  intros Hclass Hinit.
  unfold SocketExecutor.execute_single_trial, mbind. rewrite Hinit.
  destruct (if verify_idle
            then let (is_idle, message) :=
                   SocketExecutor._verify_socket_idle (ps_count env) self in
                 if negb is_idle then Some message else None
            else None) as [message|].
  - destruct (tempfile env); [intros r Hr; injection Hr as <-|]; eauto.
  - destruct (tempfile env) as [e|path].
    + intros r Hr. discriminate Hr.
    + rewrite (measured_run_missing env trial self Hclass).
      cbn [is_TimeoutExpired SocketExecutor.cpu_core SocketExecutor.set_meter].
      eexists. eexists. split; [reflexivity|]. split; [exact Hclass | exact Hinit].
Qed.

Lemma setup_success (env : SetupEnv) (self : SocketExecutor.t) (u : unit)
    (self' : SocketExecutor.t) :
  SocketExecutor.setup env self = (inr u, self') ->
  SocketExecutor._initialized self' = true.
Proof.
  unfold SocketExecutor.setup. destruct (SocketExecutor._initialized self) eqn:Hinit.
  - intros H. injection H as _ <-. exact Hinit.
  - unfold mbind, SocketExecutor.on_meter, SocketExecutor.on_calibration.
    destruct (pcm_socket_meter.setup (meter_env env) (SocketExecutor.meter self))
      as [[e|[]] st]; [discriminate|].
    cbn [SocketExecutor.calibration SocketExecutor.set_meter].
    destruct (CalibrationProfile.load (calibration_file env) (SocketExecutor.calibration self))
      as [[e|[]] c]; [discriminate|].
    cbn [SocketExecutor.calibration SocketExecutor.set_calibration].
    destruct (CalibrationProfile.is_valid (setup_datetime_now env) c) as [[] reason];
      cbn [negb]; [|discriminate].
    intros H. injection H as _ <-. reflexivity.
Qed.

(** An executor not yet set up runs [setup] first, and then behaves as an
    initialized one. *)
Lemma trial_runs_setup_first (env : TrialEnv) (trial : Z) (verify_idle : bool)
    (self : SocketExecutor.t) :
  SocketExecutor._initialized self = false ->
  SocketExecutor.execute_single_trial env trial verify_idle self
  = match SocketExecutor.setup (lazy_setup env) self with
    | (inl e, s) => (inl e, s)
    | (inr _, s) => SocketExecutor.execute_single_trial env trial verify_idle s
    end.
Proof.
  intros Hinit.
  unfold SocketExecutor.execute_single_trial at 1. unfold mbind. rewrite Hinit.
  destruct (SocketExecutor.setup (lazy_setup env) self) as [[e|u] s] eqn:Hsetup;
    [reflexivity|].
  unfold SocketExecutor.execute_single_trial, mbind.
  rewrite (setup_success _ _ _ _ Hsetup). reflexivity.
Qed.

Lemma never_successful (env : TrialEnv) (trial : Z) (verify_idle : bool)
    (self : SocketExecutor.t) (r : ExecutionResult) :
  SocketExecutor.meter_getattr self = pcm_socket_meter.getattr ->
  fst (SocketExecutor.execute_single_trial env trial verify_idle self) = inr r ->
  exists message,
    r = failed_result trial (SocketExecutor.cpu_core self) (datetime_now_iso env) message.
Proof.
  assert (Hready : forall s,
    SocketExecutor.meter_getattr s = pcm_socket_meter.getattr ->
    SocketExecutor._initialized s = true ->
    fst (SocketExecutor.execute_single_trial env trial verify_idle s) = inr r ->
    exists message,
      r = failed_result trial (SocketExecutor.cpu_core s) (datetime_now_iso env) message).
  { intros s Hclass Hinit Hr.
    pose proof (trial_on_pcm_meter env trial verify_idle s Hclass Hinit) as H.
    destruct (tempfile env) as [e|path].
    - exact (H r Hr).
    - destruct H as [message [s' [Heq _]]]. rewrite Heq in Hr.
      injection Hr as <-. eauto. }
  intros Hclass Hr.
  destruct (SocketExecutor._initialized self) eqn:Hinit; [eauto|].
  rewrite (trial_runs_setup_first env trial verify_idle self Hinit) in Hr.
  pose proof (setup_keeps_class (lazy_setup env) self) as Hk.
  pose proof (setup_keeps_core (lazy_setup env) self) as Hc.
  destruct (SocketExecutor.setup (lazy_setup env) self) as [[e|u] s] eqn:Hsetup;
    [discriminate Hr|].
  cbn [snd] in Hk, Hc. rewrite <- Hc.
  apply Hready; [congruence | exact (setup_success _ _ _ _ Hsetup) | exact Hr].
Qed.

(** A loop over trials that all fail leaves the buffer of successes as it
    was; [P] is an invariant of the executor state. *)
Lemma trial_loop_all_failed (math_sqrt : Q -> Q) (S : Type)
    (run : Z -> M S ExecutionResult) (P : S -> Prop)
    (self : StatisticalAggregator.t) :
  (forall n s, P s -> exists r s', run n s = (inr r, s') /\ success r = false /\ P s') ->
  forall trials l s, P s ->
    exists l' s',
      StatisticalAggregator.trial_loop math_sqrt S run self trials l s = (inr l', s')
      /\ successful_results l' = successful_results l
      /\ P s'.
Proof.
  intros Hrun trials. induction trials as [|n rest IH]; intros l s Hs.
  - exists l, s. cbn. auto.
  - cbn [StatisticalAggregator.trial_loop]. unfold mbind.
    destruct (Hrun n s Hs) as [r [s' [Heq [Hfail Hs']]]].
    rewrite Heq, Hfail.
    destruct (IH {| successful_results := successful_results l;
                    failed_count := failed_count l + 1;
                    early_stopped := early_stopped l;
                    stop_reason := stop_reason l;
                    trial := Some n |} s' Hs') as [l' [s'' [Hloop [Hbuf Hs'']]]].
    exists l', s''. auto.
Qed.
(** C1. On a meter of class [PCMSocketMeter], which defines
    [get_socket_energy] but no [get_socket_reading], a trial never returns
    a successful result: whatever it returns has [success = False] and zero
    energy fields. An initialized executor returns such a result (through
    the catch-all handler, with the [AttributeError] as message, when the
    idle check is off), and [aggregate_measurements] then raises
    "All trials failed", for every configuration of the aggregator. *)
Theorem C1_every_trial_fails (math_sqrt : Q -> Q) (agg : StatisticalAggregator.t)
    (envs : Z -> TrialEnv) (self : SocketExecutor.t) :
  SocketExecutor.meter_getattr self = pcm_socket_meter.getattr ->
  (pcm_socket_meter.getattr "get_socket_reading"
   = inl (AttributeError "'PCMSocketMeter' object has no attribute 'get_socket_reading'")
   /\ exists bound, pcm_socket_meter.getattr "get_socket_energy" = inr bound)
  /\ (forall env trial verify_idle r,
        fst (SocketExecutor.execute_single_trial env trial verify_idle self) = inr r ->
        success r = false
        /\ net_energy_joules r = 0%Q /\ raw_energy_joules r = 0%Q
        /\ baseline_energy_joules r = 0%Q /\ package_net_energy_joules r = 0%Q
        /\ dram_energy_joules r = 0%Q)
  /\ (SocketExecutor._initialized self = true ->
      forall env trial verify_idle path, tempfile env = inr path ->
        exists r,
          fst (SocketExecutor.execute_single_trial env trial verify_idle self) = inr r
          /\ success r = false
          /\ (verify_idle = false ->
              error_message r
              = Some "Unexpected error: 'PCMSocketMeter' object has no attribute 'get_socket_reading'"))
  /\ (SocketExecutor._initialized self = true ->
      (forall n, exists path, tempfile (envs n) = inr path) ->
      fst (StatisticalAggregator.aggregate_measurements math_sqrt SocketExecutor.t
             (fun n => SocketExecutor.execute_single_trial (envs n) n true) true agg self)
      = inl (RuntimeError "All trials failed")).
Proof.
  intros Hclass. split; [split; [reflexivity | eexists; reflexivity]|].
  split.
  { intros env trial verify_idle r Hr.
    destruct (never_successful env trial verify_idle self r Hclass Hr) as [message ->].
    cbn. auto 6. }
  split.
  { intros Hinit env trial verify_idle path Htmp.
    pose proof (trial_on_pcm_meter env trial verify_idle self Hclass Hinit) as H.
    rewrite Htmp in H. destruct H as [message [self' [Heq _]]].
    rewrite Heq. eexists. split; [reflexivity|]. split; [reflexivity|].
    intros ->. revert Heq.
    unfold SocketExecutor.execute_single_trial, mbind. rewrite Hinit, Htmp.
    rewrite (measured_run_missing env trial self Hclass).
    cbn [is_TimeoutExpired]. intros Heq. injection Heq as Hm _.
    cbn [error_message failed_result]. rewrite <- Hm. reflexivity. }
  intros Hinit Htmp.
  unfold StatisticalAggregator.aggregate_measurements. cbn [negb]. unfold mbind.
  destruct (trial_loop_all_failed math_sqrt SocketExecutor.t
              (fun n => SocketExecutor.execute_single_trial (envs n) n true)
              (fun s => SocketExecutor.meter_getattr s = pcm_socket_meter.getattr
                        /\ SocketExecutor._initialized s = true)
              agg) with (trials := range (StatisticalAggregator.max_trials agg))
                        (l := initial_locals) (s := self)
    as [l' [s' [Hloop [Hbuf _]]]].
  - intros n s [Hc Hi].
    pose proof (trial_on_pcm_meter (envs n) n true s Hc Hi) as H.
    destruct (Htmp n) as [path Hpath]. rewrite Hpath in H.
    destruct H as [message [s1 [Heq [Hc1 Hi1]]]].
    eexists. exists s1. split; [exact Heq|]. split; [reflexivity | auto].
  - auto.
  - rewrite Hloop. cbn [fst]. unfold StatisticalAggregator.summarize.
    rewrite Hbuf. reflexivity.
Qed.

(** The theorem at an initialized executor and the default aggregator. *)
Lemma C1_every_trial_fails_witness :
  fst (StatisticalAggregator.aggregate_measurements examples.exact_sqrt SocketExecutor.t
         (fun n => SocketExecutor.execute_single_trial
                     (examples.trial_env 1000000 5 3000000 7) n true)
         true StatisticalAggregator.default
         (examples.ready_executor pcm_socket_meter.getattr (Some (10 # 1)%Q)))
  = inl (RuntimeError "All trials failed").
Proof.
  apply (C1_every_trial_fails examples.exact_sqrt StatisticalAggregator.default
           (fun _ => examples.trial_env 1000000 5 3000000 7)
           (examples.ready_executor pcm_socket_meter.getattr (Some (10 # 1)%Q)) eq_refl).
  - reflexivity.
  - intros n. eexists. reflexivity.
Defined.
End MissingMethod.

(** ** The calibration profile *)

Section Calibration.
Import py socket_executor.




End Calibration.

(** ** The statistics and the stopping rule *)

Section Aggregation.
Import py socket_executor statistical_aggregator.

Variable math_sqrt : Q -> Q.

Lemma feq_inject_Z_nonzero (n : Z) : n <> 0 -> feq (inject_Z n) 0 = false.
Proof.
  intros Hn. apply feq_false. unfold Qeq, inject_Z. simpl. lia.
Qed.

Lemma fdiv_by_count (x : Q) (n : Z) :
  n <> 0 -> fdiv x (inject_Z n) = inr (x / inject_Z n)%Q.
Proof.
  intros Hn. unfold fdiv. rewrite (feq_inject_Z_nonzero n Hn). reflexivity.
Qed.

Lemma len_nonneg {A : Type} (xs : list A) : 0 <= len xs.
Proof. unfold len. lia. Qed.

Lemma len_cons_pos {A : Type} (x : A) (xs : list A) : 0 < len (x :: xs).
Proof. unfold len. cbn [length]. lia. Qed.

Lemma mean_total (data : list Q) :
  data <> [] ->
  statistics.mean data = inr (statistics.fsum data / inject_Z (len data))%Q.
Proof.
  intros Hne. destruct data as [|x xs]; [contradiction|].
  unfold statistics.mean. apply fdiv_by_count.
  pose proof (len_cons_pos x xs). lia.
Qed.

Lemma variance_total (data : list Q) :
  2 <= len data ->
  statistics.variance data
  = inr (statistics.sum_sq_dev (statistics.fsum data / inject_Z (len data)) data
         / inject_Z (len data - 1))%Q.
Proof.
  intros Hlen. unfold statistics.variance.
  destruct (len data <? 2) eqn:E; [lia|].
  rewrite mean_total.
  - apply fdiv_by_count. lia.
  - intros ->. unfold len in Hlen. cbn in Hlen. lia.
Qed.

(** [_calculate_cv] never raises. *)
Lemma calculate_cv_total (values : list Q) :
  exists cv, StatisticalAggregator._calculate_cv math_sqrt values = inr cv.
Proof.
  unfold StatisticalAggregator._calculate_cv.
  destruct (len values <? 2) eqn:E; [eexists; reflexivity|].
  rewrite mean_total by (intros ->; cbv in E; discriminate E).
  destruct (feq _ 0) eqn:Hmean; [eexists; reflexivity|].
  unfold statistics.stdev. rewrite variance_total by lia.
  unfold fdiv. rewrite Hmean. eexists; reflexivity.
Qed.

(** [_calculate_cv] of fewer than two values is zero. *)
Lemma calculate_cv_short (values : list Q) :
  len values < 2 -> StatisticalAggregator._calculate_cv math_sqrt values = inr 0%Q.
Proof.
  intros H. unfold StatisticalAggregator._calculate_cv.
  destruct (len values <? 2) eqn:E; [reflexivity | lia].
Qed.

(** The three answers of [_should_stop_early], by the value of the CV. *)
Lemma should_stop_early_cases (energies : list Q) (trial_num : Z)
    (self : StatisticalAggregator.t) (cv : Q) :
  StatisticalAggregator._calculate_cv math_sqrt energies = inr cv ->
  StatisticalAggregator._should_stop_early math_sqrt energies trial_num self
  = inr (if negb (StatisticalAggregator.early_stop_enabled self)
            || (trial_num <? StatisticalAggregator.min_trials self)
         then (false, None)
         else if flt cv (StatisticalAggregator.target_cv_percent self)
         then (true, Some (AchievedTargetCV cv (StatisticalAggregator.target_cv_percent self)))
         else if trial_num <? StatisticalAggregator.max_trials self
         then (false, None)
         else (true, Some (ReachedMaxTrials (StatisticalAggregator.max_trials self)))).
Proof.
  intros Hcv. unfold StatisticalAggregator._should_stop_early.
  destruct (StatisticalAggregator.early_stop_enabled self); cbn [negb orb]; [|reflexivity].
  destruct (trial_num <? StatisticalAggregator.min_trials self); [reflexivity|].
  rewrite Hcv.
  destruct (flt cv _); [reflexivity|].
  destruct (trial_num <? _); reflexivity.
Qed.

Section Loop.

Variable S : Type.
Variable run : Z -> M S ExecutionResult.
Variable self : StatisticalAggregator.t.

(** The stop check at the buffer of [l] has been made and was negative. *)
Let quiet (l : locals) : Prop :=
  successful_results l <> [] ->
  StatisticalAggregator.early_stop_enabled self = true ->
  StatisticalAggregator.min_trials self <= len (successful_results l) ->
  exists cv,
    StatisticalAggregator._calculate_cv math_sqrt
      (List.map net_energy_joules (successful_results l)) = inr cv
    /\ (StatisticalAggregator.target_cv_percent self <= cv)%Q
    /\ len (successful_results l) < StatisticalAggregator.max_trials self.

(** The loop stopped early at the buffer of [l], for one of the two reasons. *)
Let stopped (l : locals) : Prop :=
  StatisticalAggregator.early_stop_enabled self = true
  /\ StatisticalAggregator.min_trials self <= len (successful_results l)
  /\ exists cv,
       StatisticalAggregator._calculate_cv math_sqrt
         (List.map net_energy_joules (successful_results l)) = inr cv
       /\ (((cv < StatisticalAggregator.target_cv_percent self)%Q
            /\ stop_reason l
               = Some (AchievedTargetCV cv (StatisticalAggregator.target_cv_percent self)))
           \/ ((StatisticalAggregator.target_cv_percent self <= cv)%Q
               /\ StatisticalAggregator.max_trials self <= len (successful_results l)
               /\ stop_reason l
                  = Some (ReachedMaxTrials (StatisticalAggregator.max_trials self)))).

Lemma len_snoc {A : Type} (xs : list A) (x : A) : len (xs ++ [x])%list = len xs + 1.
Proof. unfold len. rewrite length_app. cbn [length]. lia. Qed.

Ltac fields :=
  cbn [statistical_aggregator.successful_results statistical_aggregator.failed_count
       statistical_aggregator.early_stopped statistical_aggregator.stop_reason
       statistical_aggregator.trial] in *.

Lemma trial_loop_outcome (k : nat) :
  forall (i : nat) (l : locals) (s : S) (l' : locals) (s' : S),
    len (successful_results l) + failed_count l = Z.of_nat i ->
    0 <= failed_count l ->
    early_stopped l = false -> stop_reason l = None ->
    (i <> 0%nat -> trial l = Some (Z.of_nat i - 1)) ->
    quiet l ->
    StatisticalAggregator.trial_loop math_sqrt S run self
      (List.map Z.of_nat (List.seq i k)) l s = (inr l', s') ->
    (early_stopped l' = false /\ stop_reason l' = None
     /\ len (successful_results l') + failed_count l' = Z.of_nat (i + k)
     /\ 0 <= failed_count l'
     /\ ((i + k)%nat <> 0%nat -> trial l' = Some (Z.of_nat (i + k) - 1))
     /\ quiet l')
    \/ (early_stopped l' = true
        /\ (exists n, trial l' = Some n
                      /\ len (successful_results l') + failed_count l' = n + 1
                      /\ 0 <= failed_count l'
                      /\ n + 1 <= Z.of_nat (i + k))
        /\ stopped l').
Proof.
  induction k as [|k IH]; intros i l s l' s' Hcount Hfail Hes Hsr Htrial Hquiet Hloop.
  - cbn [List.seq List.map StatisticalAggregator.trial_loop] in Hloop.
    unfold mret in Hloop. injection Hloop as Hl Hs. subst l' s'.
              left.
    rewrite Nat.add_0_r. auto 10.
  - cbn [List.seq List.map StatisticalAggregator.trial_loop] in Hloop.
    unfold mbind in Hloop.
    destruct (run (Z.of_nat i) s) as [[e|result] s1]; [discriminate Hloop|].
    replace (i + Datatypes.S k)%nat with (Datatypes.S i + k)%nat by lia.
    destruct (success result).
    + set (buffer := (successful_results l ++ [result])%list) in *.
      assert (Hlen : len buffer = len (successful_results l) + 1) by apply len_snoc.
      assert (Hne : buffer <> []) by (unfold buffer; destruct (successful_results l); discriminate).
      clearbody buffer.
      destruct (StatisticalAggregator.min_trials self <=? len buffer) eqn:Hmin.
      * destruct (calculate_cv_total (List.map net_energy_joules buffer)) as [cv Hcv].
        rewrite (should_stop_early_cases _ _ self cv Hcv) in Hloop.
        destruct (StatisticalAggregator.early_stop_enabled self) eqn:Hen; cbn [negb orb] in Hloop.
        -- destruct (len buffer <? StatisticalAggregator.min_trials self) eqn:Hlt; [lia|].
           destruct (flt cv (StatisticalAggregator.target_cv_percent self)) eqn:Hcmp.
           ++ unfold mret in Hloop. injection Hloop as Hl Hs. subst l' s'.
              right. unfold stopped. fields.
              split; [reflexivity|]. split.
              ** exists (Z.of_nat i). split; [reflexivity|]. lia.
              ** split; [reflexivity|]. split; [lia|]. exists cv. split; [exact Hcv|].
                 left. split; [apply flt_true; exact Hcmp | reflexivity].
           ++ destruct (len buffer <? StatisticalAggregator.max_trials self) eqn:Hmax.
              ** apply IH in Hloop; 
        [exact Hloop | fields; lia | fields; lia | assumption | assumption | | ].
                 --- intros _. fields. f_equal. lia.
                 --- intros _ _ _. fields. exists cv. split; [exact Hcv|].
                     split; [apply flt_false; exact Hcmp | lia].
              ** unfold mret in Hloop. injection Hloop as Hl Hs. subst l' s'.
              right. unfold stopped. fields.
                 split; [reflexivity|]. split.
                 --- exists (Z.of_nat i). split; [reflexivity|]. lia.
                 --- split; [reflexivity|]. split; [lia|]. exists cv. split; [exact Hcv|].
                     right. split; [apply flt_false; exact Hcmp|]. split; [lia | reflexivity].
        -- apply IH in Hloop; 
        [exact Hloop | fields; lia | fields; lia | assumption | assumption | | ].
           ++ intros _. fields. f_equal. lia.
           ++ intros _ Habs. fields. discriminate Habs.
      * apply IH in Hloop; 
        [exact Hloop | fields; lia | fields; lia | assumption | assumption | | ].
        -- intros _. fields. f_equal. lia.
        -- intros _ _ Habs. fields. lia.
    + apply IH in Hloop; 
        [exact Hloop | fields; lia | fields; lia | assumption | assumption | | ].
      * intros _. fields. f_equal. lia.
      * exact Hquiet.
Qed.

End Loop.
Lemma length_insert_sorted (x : Q) (xs : list Q) :
  length (statistics.insert_sorted x xs) = Datatypes.S (length xs).
Proof.
  induction xs as [|y ys IH]; [reflexivity|].
  cbn [statistics.insert_sorted]. destruct (fle x y); cbn [length]; [reflexivity|].
  rewrite IH. reflexivity.
Qed.

Lemma length_sorted (data : list Q) : length (statistics.sorted data) = length data.
Proof.
  induction data as [|x xs IH]; [reflexivity|].
  unfold statistics.sorted in *. cbn [fold_right length].
  rewrite length_insert_sorted, IH. reflexivity.
Qed.

(** [statistics.median] does not raise on data that is not empty. *)
Lemma median_total (data : list Q) :
  data <> [] -> exists m, statistics.median data = inr m.
Proof.
  intros Hne. unfold statistics.median. rewrite length_sorted.
  destruct data as [|x xs]; [contradiction|]. cbn [length Nat.eqb].
  destruct (Nat.odd _); eexists; reflexivity.
Qed.

Lemma fdiv_guarded (a b : Q) :
  exists q, (if flt 0 b then fdiv a b else ret 0%Q) = inr q.
Proof.
  destruct (flt 0 b) eqn:Hpos; [|eexists; reflexivity].
  unfold fdiv. apply flt_true in Hpos.
  assert (Hnz : feq b 0 = false) by (apply feq_false; lra).
  rewrite Hnz. eexists; reflexivity.
Qed.

(** The statistics are computed without a fault once one trial succeeded,
    and the result carries the loop's counters, the CV of the net energies
    and the confidence label of that CV. *)
Lemma summarize_fields (self : StatisticalAggregator.t) (l : locals) :
  successful_results l <> [] ->
  forall last, trial l = Some last ->
  exists r,
    StatisticalAggregator.summarize math_sqrt self l = inr r
    /\ successful_trials r = len (successful_results l)
    /\ failed_trials r = failed_count l
    /\ total_trials r = last + 1
    /\ early_stop r = early_stopped l
    /\ early_stop_reason r = stop_reason l
    /\ StatisticalAggregator._calculate_cv math_sqrt
         (List.map net_energy_joules (successful_results l)) = inr (cv_percent r)
    /\ confidence_level r
       = StatisticalAggregator._assess_confidence (cv_percent r)
           (len (successful_results l)) self
    /\ (if 1 <? len (successful_results l)
        then statistics.stdev math_sqrt (List.map net_energy_joules (successful_results l))
        else ret 0%Q) = inr (stddev_energy_joules r).
Proof.
  intros Hne last Hlast. unfold StatisticalAggregator.summarize.
  assert (Hlen : 0 < len (successful_results l)).
  { destruct (successful_results l); [contradiction | apply len_cons_pos]. }
  destruct (len (successful_results l) =? 0) eqn:E; [lia|]. clear E.
  assert (Hmap : forall f : ExecutionResult -> Q, List.map f (successful_results l) <> []).
  { intros f. destruct (successful_results l); [contradiction | discriminate]. }
  destruct (median_total _ (Hmap net_energy_joules)) as [m1 ->].
  destruct (median_total _ (Hmap package_net_energy_joules)) as [m2 ->].
  destruct (median_total _ (Hmap dram_energy_joules)) as [m3 ->].
  rewrite (mean_total _ (Hmap net_energy_joules)).
  assert (Hsd : exists sd,
    (if 1 <? len (List.map net_energy_joules (successful_results l))
     then statistics.stdev math_sqrt (List.map net_energy_joules (successful_results l))
     else ret 0%Q) = inr sd).
  { destruct (1 <? _) eqn:E; [|eexists; reflexivity].
    unfold statistics.stdev. rewrite variance_total by lia. eexists; reflexivity. }
  destruct Hsd as [sd Hsd]. rewrite Hsd.
  destruct (calculate_cv_total (List.map net_energy_joules (successful_results l)))
    as [cv Hcv].
  rewrite Hcv.
  destruct (median_total _ (Hmap execution_time_seconds)) as [m4 ->].
  rewrite (mean_total _ (Hmap execution_time_seconds)).
  destruct (fdiv_guarded m1 m4) as [p1 ->].
  match goal with |- context [if flt 0 ?t then fdiv ?e ?t else _] =>
    destruct (fdiv_guarded e t) as [p2 ->] end.
  rewrite Hlast. eexists. split; [reflexivity|].
  cbn [successful_trials failed_trials total_trials early_stop early_stop_reason
       cv_percent confidence_level stddev_energy_joules].
  repeat (split; [reflexivity|]).
  unfold len in Hsd |- *. rewrite length_map in Hsd. exact Hsd.
Qed.



(** C6, as stated, fails: with [min_trials = 1] a single successful trial
    has a standard deviation and a CV of zero and the label "high". *)
Lemma C6_counterexample :
  exists r,
    fst (StatisticalAggregator.aggregate_measurements examples.exact_sqrt unit
           (examples.scripted [examples.ok_trial 0 2 1])
           true (examples.aggregator 1 1) tt) = inr r
    /\ successful_trials r = 1
    /\ stddev_energy_joules r = 0%Q
    /\ cv_percent r = 0%Q
    /\ confidence_level r = "high".
Proof.
  eexists. split; [vm_compute; reflexivity|].
  repeat split.
Qed.

(** C6, amended. The label is "high" iff CV% < 5 and the successful trials
    number at least [min_trials], "medium" iff it is not "high", CV% < 10
    and the successful trials number at least [min_trials], and "low"
    otherwise. The statistics of a buffer that is not empty are computed
    without a fault; for exactly one successful trial the standard
    deviation and the CV are zero, and the label is "low" when
    [min_trials] is at least 2 (and "high" when it is at most 1); for two
    or more, the standard deviation is the square root of the sum of
    squared deviations from the mean over [n - 1]. *)
Theorem C6_confidence_label (self : StatisticalAggregator.t) :
  (forall (cv : Q) (n : Z),
     (StatisticalAggregator._assess_confidence cv n self = "high"
      <-> (cv < 5)%Q /\ StatisticalAggregator.min_trials self <= n)
     /\ (StatisticalAggregator._assess_confidence cv n self = "medium"
         <-> (5 <= cv)%Q /\ (cv < 10)%Q /\ StatisticalAggregator.min_trials self <= n)
     /\ (StatisticalAggregator._assess_confidence cv n self = "low"
         <-> ~ ((cv < 10)%Q /\ StatisticalAggregator.min_trials self <= n)))
  /\ (forall (l : locals) (last : Z),
        successful_results l <> [] -> trial l = Some last ->
        exists r,
          StatisticalAggregator.summarize math_sqrt self l = inr r
          /\ confidence_level r
             = StatisticalAggregator._assess_confidence (cv_percent r)
                 (successful_trials r) self
          /\ (successful_trials r = 1 ->
              stddev_energy_joules r = 0%Q /\ cv_percent r = 0%Q
              /\ (2 <= StatisticalAggregator.min_trials self -> confidence_level r = "low")
              /\ (StatisticalAggregator.min_trials self <= 1 -> confidence_level r = "high"))
          /\ (2 <= successful_trials r ->
              let energies := List.map net_energy_joules (successful_results l) in
              let n := inject_Z (successful_trials r) in
              stddev_energy_joules r
              = math_sqrt (statistics.sum_sq_dev (statistics.fsum energies / n) energies
                           / (inject_Z (successful_trials r - 1)))%Q)).
Proof.
  split.
  - intros cv n. unfold StatisticalAggregator._assess_confidence.
    destruct (flt cv 5) eqn:H5; destruct (flt cv 10) eqn:H10;
      destruct (StatisticalAggregator.min_trials self <=? n) eqn:Hmin;
      cbn [andb];
      try (apply flt_true in H5); try (apply flt_false in H5);
      try (apply flt_true in H10); try (apply flt_false in H10);
      (split; [|split]); split; try discriminate; try reflexivity;
      try (intros [? ?]; lia || lra);
      try (intros [? [? ?]]; lia || lra);
      try (intros _; repeat split; (assumption || lia || lra));
      try (intros _ [? ?]; lia || lra);
      try (intros Hn; exfalso; apply Hn; split; (assumption || lia || lra)).
  - intros l last Hne Hlast.
    destruct (summarize_fields self l Hne last Hlast)
      as [r [Hr [Hs [_ [_ [_ [_ [Hcv [Hconf Hsd]]]]]]]]].
    exists r. split; [exact Hr|]. rewrite Hs.
    split; [exact Hconf|]. split.
    + intros H1. rewrite H1 in Hsd. cbn [Z.ltb Z.compare Pos.compare Pos.compare_cont] in Hsd.
      injection Hsd as Hsd.
      rewrite calculate_cv_short in Hcv
        by (unfold len in H1 |- *; rewrite length_map; lia).
      injection Hcv as Hcv.
      rewrite Hconf, <- Hcv, H1. unfold StatisticalAggregator._assess_confidence.
      change (flt 0 5) with true. change (flt 0 10) with true. cbn [andb].
      split; [congruence|]. split; [reflexivity|]. split; intros Hmin.
      * destruct (StatisticalAggregator.min_trials self <=? 1) eqn:E; [lia | reflexivity].
      * destruct (StatisticalAggregator.min_trials self <=? 1) eqn:E; [reflexivity | lia].
    + intros H2 energies n.
      destruct (1 <? len (successful_results l)) eqn:E; [|lia].
      unfold statistics.stdev in Hsd.
      assert (Hlen : len energies = len (successful_results l)).
      { unfold energies, len. rewrite length_map. reflexivity. }
      rewrite variance_total in Hsd by (fold energies; lia).
      injection Hsd as Hsd. fold energies in Hsd. rewrite Hlen in Hsd.
      symmetry. exact Hsd.
Qed.

End Aggregation.


(** ** The serialization lock *)

Section Lock.
Import py socket_measurement_task.


Lemma absent_after_delete (key : string) (r : backend) :
  present key (redis_delete key r) = false.
Proof.
  unfold present, redis_delete. cbn [db]. rewrite lookup_delete_eq. reflexivity.
Qed.


End Lock.

(** ** The correctness gate of the measurement task *)

Section Gate.
Import py socket_executor socket_measurement_task.

(** C8. When the validator reports [is_correct = false], the task answers
    with the validation-only response, and nothing happens after the
    validator's call: the lock backend and the executor (with its meter and
    the log of counter reads) are as before, and the validator's call is
    the last event of the request. *)
Theorem C8_incorrect_code_is_never_measured (math_sqrt : Q -> Q) (env : TaskEnv)
    (request_id : string) (w : world) (request : JouleTraceMeasurementRequest)
    (answer : ValidationResult) :
  parsed env = inr request ->
  validator_answer env = inr answer ->
  is_correct answer = false ->
  exists validation w',
    socket_measurement_task math_sqrt env request_id w
    = (ValidationOnly request_id request validation, w')
    /\ status (ValidationOnly request_id request validation) = "validation_failed"
    /\ v_is_correct validation = false
    /\ redis w' = redis w
    /\ executor w' = executor w
    /\ pcm_socket_meter.rapl_reads (SocketExecutor.meter (executor w'))
       = pcm_socket_meter.rapl_reads (SocketExecutor.meter (executor w))
    /\ events w'
       = (events w ++ [UpdateState "initializing"; UpdateState "validation";
                       ValidatorCalled])%list
    /\ (forall e, In e (events w') -> ~ In e (events w) ->
        e <> LockRelease /\ e <> ExecutorSetup /\ e <> ExecutorCleanup
        /\ (forall b, e <> LockAcquire b) /\ (forall n, e <> TrialStarted n)).
Proof.
  intros Hparsed Hanswer Hwrong.
  unfold socket_measurement_task, task_body, mbind, update_state, emit, _validate_solution,
    mbind, emit.
  cbn [redis executor events]. rewrite Hparsed, Hanswer, Hwrong.
  cbn [negb v_is_correct mret]. unfold mret.
  eexists. eexists. split; [reflexivity|].
  cbn [redis executor events].
  repeat rewrite <- app_assoc. cbn [app].
  split; [reflexivity|]. split; [reflexivity|]. split; [reflexivity|].
  split; [reflexivity|]. split; [reflexivity|]. split; [reflexivity|].
  intros e Hin Hold. apply in_app_or in Hin. destruct Hin as [Hin|Hin]; [contradiction|].
  cbn [In] in Hin.
  destruct Hin as [<-|[<-|[<-|[]]]]; repeat split; try discriminate; intros; discriminate.
Qed.

(** The gate at a request whose candidate fails its tests. *)
Lemma C8_incorrect_code_is_never_measured_witness :
  status (fst (socket_measurement_task examples.exact_sqrt (examples.task_env false)
                 "req-1" examples.free_world))
  = "validation_failed".
Proof.
  destruct (C8_incorrect_code_is_never_measured examples.exact_sqrt
              (examples.task_env false) "req-1" examples.free_world
              examples.request (examples.verdict false) eq_refl eq_refl eq_refl)
    as [validation [w' [Hrun _]]].
  rewrite Hrun. reflexivity.
Defined.

End Gate.

(** ** The counter files of the reader *)

Section Reader.
Import py pcm_socket_meter.

(** A reading that misses the cache, on a socket whose package counter
    reads [package_uj] and whose DRAM file, at the path the reader builds,
    is absent: no error, and 0 joules for DRAM. *)
Lemma read_without_dram (fs : gmap string node) (now : Q) (sid package_uj : Z)
    (st : MeterState) :
  _last_reading_cache st !! sid = None ->
  fs !! rapl_socket_dir sid = Some Directory ->
  fs !! package_energy_file sid = Some (Counter package_uj) ->
  fs !! dram_energy_file sid = None ->
  fst (_read_socket_energy fs now sid st)
  = inr {| socket_id := sid;
           package_energy_joules := joules_of_uj package_uj;
           dram_energy_joules := 0;
           timestamp := now |}.
Proof.
  intros Hmiss Hdir Hpkg Hdram.
  unfold _read_socket_energy. rewrite Hmiss.
  unfold exists_. rewrite Hdir. cbn [negb].
  unfold read_counters, exists_, mbind, read_int. rewrite Hpkg, Hdram.
  reflexivity.
Qed.

(** C9: what the code does. The DRAM path is built with the constant child
    name "intel-rapl:0:0": for socket 0 it is the path of the claim, for
    socket 1 it is not, and a DRAM counter of 5 J at
    [intel-rapl:1/intel-rapl:1:0/energy_uj] is reported as 0. An absent
    DRAM file gives 0 joules and no error. *)
Theorem C9_dram_path_ignores_socket :
  dram_energy_file 0
  = "/sys/class/powercap/intel-rapl/intel-rapl:0/intel-rapl:0:0/energy_uj"
  /\ dram_energy_file 1
     = "/sys/class/powercap/intel-rapl/intel-rapl:1/intel-rapl:0:0/energy_uj"
  /\ dram_energy_file 1
     <> "/sys/class/powercap/intel-rapl/intel-rapl:1/intel-rapl:1:0/energy_uj"
  /\ (let fs : gmap string node :=
        <["/sys/class/powercap/intel-rapl/intel-rapl:1" := Directory]>
        (<["/sys/class/powercap/intel-rapl/intel-rapl:1/energy_uj" := Counter 7000000]>
        (<["/sys/class/powercap/intel-rapl/intel-rapl:1/intel-rapl:1:0" := Directory]>
        (<["/sys/class/powercap/intel-rapl/intel-rapl:1/intel-rapl:1:0/energy_uj" :=
             Counter 5000000]> ∅))) in
      fst (_read_socket_energy fs 100 1 new)
      = inr {| socket_id := 1;
               package_energy_joules := joules_of_uj 7000000;
               dram_energy_joules := 0;
               timestamp := 100 |})
  /\ (forall (fs : gmap string node) (now : Q) (sid package_uj : Z) (st : MeterState),
        _last_reading_cache st !! sid = None ->
        fs !! rapl_socket_dir sid = Some Directory ->
        fs !! package_energy_file sid = Some (Counter package_uj) ->
        fs !! dram_energy_file sid = None ->
        exists reading,
          fst (_read_socket_energy fs now sid st) = inr reading
          /\ dram_energy_joules reading = 0%Q).
Proof.
  split; [reflexivity|]. split; [reflexivity|]. split; [discriminate|].
  split; [vm_compute; reflexivity|].
  intros fs now sid package_uj st Hmiss Hdir Hpkg Hdram.
  rewrite (read_without_dram fs now sid package_uj st Hmiss Hdir Hpkg Hdram).
  eexists. split; reflexivity.
Qed.

End Reader.

(** ** The resource limits *)

Section Limits.
Import py executor.




End Limits.

(** * Further properties of the modelled code *)

(** ** The lock: release, waiting and expiry *)

Section LockMore.
Import py socket_measurement_task.

(** Releasing twice is releasing once, and the key is gone afterwards,
    whoever held it. *)
Theorem release_idempotent (self : Socket0Lock.t) (r : backend) :
  Socket0Lock.release self (Socket0Lock.release self r) = Socket0Lock.release self r
  /\ present (Socket0Lock.lock_name self) (Socket0Lock.release self r) = false
  /\ clock (Socket0Lock.release self r) = clock r.
Proof.
  unfold Socket0Lock.release, redis_delete. cbn [db clock].
  split; [|split; [|reflexivity]].
  - f_equal. apply map_eq. intros k.
    destruct (decide (k = Socket0Lock.lock_name self)) as [->|Hne].
    + rewrite !lookup_delete_eq. reflexivity.
    + rewrite !lookup_delete_ne by congruence. reflexivity.
  - unfold present. cbn [db]. rewrite lookup_delete_eq. reflexivity.
Qed.

(** The polls of a blocking [acquire] against a key that stays present:
    with [k] polls to go before the deadline, the loop gives up at the
    deadline and has changed nothing but the clock. *)
Lemma poll_held (self : Socket0Lock.t) (start timeout expiry : Z) (value : string) :
  start + timeout * 1000 <= expiry ->
  forall (k fuel : nat) (r : backend),
    db r !! Socket0Lock.lock_name self = Some (value, expiry) ->
    clock r = start + timeout * 1000 - 500 * Z.of_nat k ->
    (k < fuel)%nat ->
    Socket0Lock.poll fuel self start timeout r
    = (false, {| db := db r; clock := start + timeout * 1000 |}).
Proof.
  intros Hexp k. induction k as [|k IH]; intros fuel r Hkey Hclock Hfuel.
  - destruct fuel as [|fuel]; [lia|]. cbn [Socket0Lock.poll].
    destruct (clock r - start <? timeout * 1000) eqn:E; [lia|].
    destruct r as [d c]. cbn [db clock] in *. f_equal. f_equal. lia.
  - destruct fuel as [|fuel]; [lia|]. cbn [Socket0Lock.poll].
    destruct (clock r - start <? timeout * 1000) eqn:E; [|lia].
    unfold redis_set_nx_ex, present. rewrite Hkey.
    destruct (clock r <? expiry) eqn:E2; [|lia].
    rewrite (IH fuel (sleep_ms 500 r)); [reflexivity | exact Hkey | | lia].
    unfold sleep_ms. cbn [clock]. lia.
Qed.

(** A blocking [acquire] against a key that outlives the wait returns
    false after exactly [timeout] seconds and leaves the store as it was. *)
Theorem acquire_blocking_gives_up (self : Socket0Lock.t) (timeout expiry : Z)
    (value : string) (r : backend) :
  0 <= timeout ->
  db r !! Socket0Lock.lock_name self = Some (value, expiry) ->
  clock r + timeout * 1000 <= expiry ->
  Socket0Lock.acquire true timeout self r
  = (false, {| db := db r; clock := clock r + timeout * 1000 |}).
Proof.
  intros Htimeout Hkey Hexp. unfold Socket0Lock.acquire.
  apply (poll_held self (clock r) timeout expiry value Hexp (Z.to_nat (2 * timeout)));
    [exact Hkey | lia | lia].
Qed.

(** A blocking [acquire] of a free key succeeds at once, like the
    non-blocking one, when the wait is positive; with a wait of zero or
    less it returns false without a single attempt, free key or not. *)
Theorem acquire_blocking_free_key (self : Socket0Lock.t) (timeout : Z) (r : backend) :
  (0 < timeout -> present (Socket0Lock.lock_name self) r = false ->
   Socket0Lock.acquire true timeout self r = Socket0Lock.acquire false timeout self r
   /\ fst (Socket0Lock.acquire true timeout self r) = true)
  /\ (timeout <= 0 -> Socket0Lock.acquire true timeout self r = (false, r)).
Proof.
  unfold Socket0Lock.acquire. split.
  - intros Hpos Hfree.
    replace (Z.to_nat (2 * timeout) + 1)%nat with (Datatypes.S (Z.to_nat (2 * timeout))) by lia.
    cbn [Socket0Lock.poll].
    destruct (clock r - clock r <? timeout * 1000) eqn:E; [|lia].
    unfold redis_set_nx_ex. rewrite Hfree. split; reflexivity.
  - intros Hneg.
    replace (Z.to_nat (2 * timeout) + 1)%nat with 1%nat by lia.
    cbn [Socket0Lock.poll].
    destruct (clock r - clock r <? timeout * 1000) eqn:E; [lia | reflexivity].
Qed.

(** The expiry is a dead man's switch: once [lock_timeout] seconds have
    passed since holder A acquired, holder B's non-blocking [acquire]
    succeeds although A never released. *)
Theorem expired_lock_can_be_taken (A B : Socket0Lock.t) (wait wait' dt : Z)
    (r r1 : backend) :
  Socket0Lock.lock_name A = Socket0Lock.lock_name B ->
  Socket0Lock.acquire false wait A r = (true, r1) ->
  Socket0Lock.lock_timeout A * 1000 <= dt ->
  fst (Socket0Lock.acquire false wait' B (sleep_ms dt r1)) = true.
Proof.
  intros Hname Hacq Hdt. unfold Socket0Lock.acquire in *.
  unfold redis_set_nx_ex in Hacq.
  destruct (present (Socket0Lock.lock_name A) r); [discriminate Hacq|].
  injection Hacq as <-.
  unfold redis_set_nx_ex, present, sleep_ms. cbn [db clock].
  rewrite <- Hname, lookup_insert_eq.
  destruct (clock r + dt <? clock r + Socket0Lock.lock_timeout A * 1000) eqn:E; [lia|].
  reflexivity.
Qed.

End LockMore.

(** The three lock theorems at concrete stores. *)
Lemma acquire_blocking_gives_up_witness :
  socket_measurement_task.Socket0Lock.acquire true 60
    socket_measurement_task.Socket0Lock.default
    {| socket_measurement_task.db := {[ "jouletrace:socket0:lock" := ("locked", 300000) ]};
       socket_measurement_task.clock := 1000 |}
  = (false,
     {| socket_measurement_task.db := {[ "jouletrace:socket0:lock" := ("locked", 300000) ]};
        socket_measurement_task.clock := 61000 |}).
Proof.
  apply (acquire_blocking_gives_up socket_measurement_task.Socket0Lock.default 60 300000
           "locked").
  - lia.
  - reflexivity.
  - cbn. lia.
Defined.

Lemma expired_lock_can_be_taken_witness :
  fst (socket_measurement_task.Socket0Lock.acquire false 60
         (socket_measurement_task.Socket0Lock.new 120)
         (socket_measurement_task.sleep_ms 300000
            (snd (socket_measurement_task.Socket0Lock.acquire false 60
                    socket_measurement_task.Socket0Lock.default
                    {| socket_measurement_task.db := ∅;
                       socket_measurement_task.clock := 0 |}))))
  = true.
Proof.
  apply (expired_lock_can_be_taken socket_measurement_task.Socket0Lock.default
           (socket_measurement_task.Socket0Lock.new 120) 60 60 300000
           {| socket_measurement_task.db := ∅; socket_measurement_task.clock := 0 |}).
  - reflexivity.
  - reflexivity.
  - cbn. lia.
Defined.

(** ** The measurement task: lock handling and outcome *)

Section TaskMore.
Import py socket_executor statistical_aggregator socket_measurement_task.

Variable math_sqrt : Q -> Q.

(** A request that waits a minute in vain for the lock answers "failed",
    and its failure handler deletes the key of the worker that holds it;
    the executor is not touched. *)
Theorem busy_lock_is_deleted_by_the_loser (env : TaskEnv) (request_id value : string)
    (w : world) (request : JouleTraceMeasurementRequest) (answer : ValidationResult)
    (expiry : Z) :
  parsed env = inr request ->
  validator_answer env = inr answer ->
  is_correct answer = true ->
  db (redis w) !! "jouletrace:socket0:lock" = Some (value, expiry) ->
  clock (redis w) + 60000 <= expiry ->
  exists w',
    socket_measurement_task math_sqrt env request_id w
    = (Failed request_id "RuntimeError" "Failed to acquire Socket 0 lock", w')
    /\ present "jouletrace:socket0:lock" (redis w) = true
    /\ db (redis w') !! "jouletrace:socket0:lock" = None
    /\ executor w' = executor w
    /\ events w'
       = (events w ++ [UpdateState "initializing"; UpdateState "validation";
                       ValidatorCalled; UpdateState "acquiring_socket0_lock";
                       LockAcquire false; LockRelease])%list.
Proof.
  intros Hparsed Hanswer Hright Hkey Hexp.
  unfold socket_measurement_task, task_body, mbind, update_state, emit, _validate_solution,
    mbind, emit.
  cbn [redis executor events]. rewrite Hparsed, Hanswer, Hright.
  cbn [negb v_is_correct]. unfold with_lock, Socket0Lock.__enter__.
  cbn [redis executor events].
  unfold Socket0Lock.acquire.
  assert (Hdeadline : clock (redis w) + 60 * 1000 <= expiry) by lia.
  assert (Hclock : clock (redis w)
                   = clock (redis w) + 60 * 1000 - 500 * Z.of_nat (Z.to_nat (2 * 60)))
    by lia.
  assert (Hfuel : (Z.to_nat (2 * 60) < Z.to_nat (2 * 60) + 1)%nat) by lia.
  rewrite (poll_held task_lock (clock (redis w)) 60 expiry value Hdeadline
             (Z.to_nat (2 * 60)) _ (redis w) Hkey Hclock Hfuel).
  clear Hdeadline Hclock Hfuel.
  cbn [negb redis executor events type_name str].
  eexists. split; [reflexivity|]. cbn [redis executor events].
  split.
  { unfold present. rewrite Hkey. destruct (clock (redis w) <? expiry) eqn:E; [reflexivity | lia]. }
  split.
  { unfold Socket0Lock.release, redis_delete. cbn [db]. apply lookup_delete_eq. }
  split; [reflexivity|].
  repeat rewrite <- app_assoc. reflexivity.
Qed.

(** Whatever happens, the request does not leave the lock key behind:
    either it ended at the correctness gate and never touched the store,
    or the key is absent when it returns. *)
Theorem task_never_leaves_the_lock_held (env : TaskEnv) (request_id : string) (w : world) :
  (exists request validation,
      fst (socket_measurement_task math_sqrt env request_id w)
      = ValidationOnly request_id request validation
      /\ redis (snd (socket_measurement_task math_sqrt env request_id w)) = redis w)
  \/ present "jouletrace:socket0:lock"
       (redis (snd (socket_measurement_task math_sqrt env request_id w))) = false.
Proof.
  unfold socket_measurement_task.
  destruct (task_body math_sqrt env request_id w) as [[e|answer] w'] eqn:Hbody.
  - right. cbn [snd redis]. apply absent_after_delete.
  - revert Hbody.
    unfold task_body, mbind, update_state, emit, _validate_solution, mbind, emit.
    cbn [redis executor events].
    destruct (parsed env) as [e|request]; [discriminate|].
    destruct (validator_answer env) as [e|verdict]; [discriminate|].
    cbn [v_is_correct].
    destruct (is_correct verdict); cbn [negb].
    + unfold with_lock. cbn [redis executor events].
      destruct (Socket0Lock.__enter__ task_lock (redis w)) as [[e|[]] r1]; [discriminate|].
      destruct (locked_section math_sqrt env _) as [[e|result] w2]; [discriminate|].
      cbn [redis executor events].
      destruct (build_energy_metrics request result); [discriminate|].
      unfold mret. intros H. injection H as _ <-. right.
      cbn [snd redis]. apply absent_after_delete.
    + unfold mret. intros H. injection H as <- <-. left.
      eexists. eexists. split; reflexivity.
Qed.

(** A trial leaves the class of the executor's meter as it is. *)
Lemma trial_keeps_pcm_class (env : TrialEnv) (trial : Z) (verify_idle : bool)
    (self : SocketExecutor.t) :
  SocketExecutor.meter_getattr self = pcm_socket_meter.getattr ->
  SocketExecutor.meter_getattr
    (snd (SocketExecutor.execute_single_trial env trial verify_idle self))
  = pcm_socket_meter.getattr.
Proof.
  assert (Hready : forall s,
    SocketExecutor.meter_getattr s = pcm_socket_meter.getattr ->
    SocketExecutor._initialized s = true ->
    SocketExecutor.meter_getattr
      (snd (SocketExecutor.execute_single_trial env trial verify_idle s))
    = pcm_socket_meter.getattr).
  { intros s Hclass Hinit.
    pose proof (trial_on_pcm_meter env trial verify_idle s Hclass Hinit) as H.
    destruct (tempfile env) as [e|path] eqn:Htmp.
    - unfold SocketExecutor.execute_single_trial, mbind. rewrite Hinit, Htmp.
      destruct (if verify_idle
                then let (is_idle, message) :=
                       SocketExecutor._verify_socket_idle (ps_count env) s in
                     if negb is_idle then Some message else None
                else None); exact Hclass.
    - destruct H as [message [s' [Heq [Hc _]]]]. rewrite Heq. exact Hc. }
  intros Hclass.
  destruct (SocketExecutor._initialized self) eqn:Hinit; [auto|].
  rewrite (trial_runs_setup_first env trial verify_idle self Hinit).
  pose proof (setup_keeps_class (lazy_setup env) self) as Hk.
  destruct (SocketExecutor.setup (lazy_setup env) self) as [[e|u] s] eqn:Hsetup;
    cbn [snd] in Hk |- *; [congruence|].
  apply Hready; [congruence | exact (setup_success _ _ _ _ Hsetup)].
Qed.

(** A loop none of whose trials succeeds leaves the buffer of successes as
    it was, whether trials fail or raise; [P] is an invariant of the
    executor state. *)
Lemma trial_loop_no_success (S : Type) (run : Z -> M S ExecutionResult) (P : S -> Prop)
    (self : StatisticalAggregator.t) :
  (forall n s, P s ->
     P (snd (run n s))
     /\ forall r, fst (run n s) = inr r -> success r = false) ->
  forall trials l s l' s',
    P s ->
    StatisticalAggregator.trial_loop math_sqrt S run self trials l s = (inr l', s') ->
    successful_results l' = successful_results l.
Proof.
  intros Hrun trials. induction trials as [|n rest IH]; intros l s l' s' Hs Hloop.
  - cbn in Hloop. injection Hloop as <- _. reflexivity.
  - cbn [StatisticalAggregator.trial_loop] in Hloop. unfold mbind in Hloop.
    destruct (Hrun n s Hs) as [Hs' Hfail].
    destruct (run n s) as [[e|r] s1]; [discriminate Hloop|].
    cbn [fst snd] in Hs', Hfail. rewrite (Hfail r eq_refl) in Hloop.
    apply IH in Hloop; [exact Hloop | exact Hs'].
Qed.

(** On an executor whose meter is a [PCMSocketMeter], the aggregator never
    returns a result. *)
Lemma aggregate_never_returns (env : TaskEnv) (w w' : world) (r : AggregatedResult) :
  SocketExecutor.meter_getattr (executor w) = pcm_socket_meter.getattr ->
  StatisticalAggregator.aggregate_measurements math_sqrt world (run_trial env) true
    task_aggregator w <> (inr r, w').
Proof.
  intros Hclass Hagg.
  unfold StatisticalAggregator.aggregate_measurements in Hagg. cbn [negb] in Hagg.
  unfold mbind in Hagg.
  destruct (StatisticalAggregator.trial_loop math_sqrt world (run_trial env) task_aggregator
              (range (StatisticalAggregator.max_trials task_aggregator)) initial_locals w)
    as [[e|l] w1] eqn:Hloop; [discriminate Hagg|].
  apply (trial_loop_no_success world (run_trial env)
           (fun w => SocketExecutor.meter_getattr (executor w) = pcm_socket_meter.getattr))
    in Hloop; [| |exact Hclass].
  - unfold StatisticalAggregator.summarize in Hagg. rewrite Hloop in Hagg.
    discriminate Hagg.
  - intros n s Hs. unfold run_trial, mbind, emit, on_executor. cbn [executor].
    pose proof (trial_keeps_pcm_class (trial_env env n) n true (executor s) Hs) as Hk.
    pose proof (never_successful (trial_env env n) n true (executor s)) as Hn.
    destruct (SocketExecutor.execute_single_trial (trial_env env n) n true (executor s))
      as [[e|r0] x]; cbn [fst snd executor] in *.
    + split; [exact Hk | discriminate].
    + split; [exact Hk|]. intros r1 Hr1. injection Hr1 as <-.
      destruct (Hn r0 Hs eq_refl) as [message ->]. reflexivity.
Qed.

(** A worker whose executor meters with a [PCMSocketMeter] never answers
    "completed": every request ends as "validation_failed" or "failed". *)
Theorem task_never_completes (env : TaskEnv) (request_id : string) (w : world) :
  SocketExecutor.meter_getattr (executor w) = pcm_socket_meter.getattr ->
  status (fst (socket_measurement_task math_sqrt env request_id w)) <> "completed".
Proof.
  intros Hclass. unfold socket_measurement_task.
  destruct (task_body math_sqrt env request_id w) as [[e|answer] w'] eqn:Hbody;
    [cbn; discriminate|].
  cbn [fst]. destruct answer as [id rq v|id rq v metrics|id et em]; cbn [status];
    try discriminate.
  exfalso. revert Hbody.
  unfold task_body, mbind, update_state, emit, _validate_solution, mbind, emit.
  cbn [redis executor events].
  destruct (parsed env) as [e|request]; [discriminate|].
  destruct (validator_answer env) as [e|verdict]; [discriminate|].
  cbn [v_is_correct].
  destruct (is_correct verdict); cbn [negb]; [|discriminate].
  unfold with_lock. cbn [redis executor events].
  destruct (Socket0Lock.__enter__ task_lock (redis w)) as [[e|[]] r1]; [discriminate|].
  unfold locked_section, mbind, update_state, emit, on_executor.
  cbn [redis executor events].
  pose proof (setup_keeps_class (executor_setup env) (executor w)) as Hk.
  destruct (SocketExecutor.setup (executor_setup env) (executor w)) as [[e|[]] x];
    [discriminate|].
  cbn [snd] in Hk.
  match goal with
  | |- context [StatisticalAggregator.aggregate_measurements _ _ _ _ _ ?w0] =>
      pose proof (fun r w1 => aggregate_never_returns env w0 w1 r) as Hnever;
      destruct (StatisticalAggregator.aggregate_measurements math_sqrt world
                  (run_trial env) true task_aggregator w0) as [[e|result] w2]
  end; [discriminate|].
  exfalso. apply (Hnever result w2); [cbn [executor]; congruence | reflexivity].
Qed.

End TaskMore.

(** The task on a request with correct code and a free lock. *)
Lemma task_never_completes_witness :
  socket_measurement_task.status
    (fst (socket_measurement_task.socket_measurement_task examples.exact_sqrt
            (examples.task_env true) "req-1" examples.free_world))
  <> "completed".
Proof.
  apply (task_never_completes examples.exact_sqrt (examples.task_env true) "req-1"
           examples.free_world).
  reflexivity.
Defined.

Lemma busy_lock_is_deleted_by_the_loser_witness :
  fst (socket_measurement_task.socket_measurement_task examples.exact_sqrt
         (examples.task_env true) "req-2"
         {| socket_measurement_task.redis :=
              {| socket_measurement_task.db :=
                   {[ "jouletrace:socket0:lock" := ("locked", 300000) ]};
                 socket_measurement_task.clock := 1000 |};
            socket_measurement_task.executor :=
              socket_executor.SocketExecutor.new 0 4 30 "config/socket0_calibration.json";
            socket_measurement_task.events := [] |})
  = socket_measurement_task.Failed "req-2" "RuntimeError" "Failed to acquire Socket 0 lock".
Proof.
  edestruct (busy_lock_is_deleted_by_the_loser examples.exact_sqrt
               (examples.task_env true) "req-2" "locked"
               {| socket_measurement_task.redis :=
                    {| socket_measurement_task.db :=
                         {[ "jouletrace:socket0:lock" := ("locked", 300000) ]};
                       socket_measurement_task.clock := 1000 |};
                  socket_measurement_task.executor :=
                    socket_executor.SocketExecutor.new 0 4 30
                      "config/socket0_calibration.json";
                  socket_measurement_task.events := [] |}
               examples.request (examples.verdict true) 300000)
    as [w' [Hrun _]].
  - reflexivity.
  - reflexivity.
  - reflexivity.
  - reflexivity.
  - cbn. lia.
  - rewrite Hrun. reflexivity.
Defined.

(** ** The reader: cache and errors *)

Section ReaderMore.
Import py pcm_socket_meter.

(** A read that goes to sysfs and succeeds stores its reading under the
    socket and stamps the cache with the time of the read. *)
Lemma fresh_read_fills_cache (fs : gmap string node) (now : Q) (sid : Z)
    (st st' : MeterState) (reading : PCMReading) :
  _last_reading_cache st !! sid = None ->
  _read_socket_energy fs now sid st = (inr reading, st') ->
  _last_reading_cache st' = <[sid := reading]> (_last_reading_cache st)
  /\ _cache_timestamp st' = now
  /\ timestamp reading = now
  /\ socket_id reading = sid.
Proof.
  intros Hmiss. unfold _read_socket_energy. rewrite Hmiss.
  destruct (negb (exists_ fs (rapl_socket_dir sid))); [discriminate|].
  unfold read_counters, mbind.
  destruct (negb (exists_ fs (package_energy_file sid))); [cbn; discriminate|].
  destruct (read_int fs (package_energy_file sid)) as [e|uj].
  { destruct (is_OSError e || is_ValueError e); discriminate. }
  destruct (exists_ fs (dram_energy_file sid)).
  - destruct (read_int fs (dram_energy_file sid)) as [e|dram].
    { destruct (is_OSError e || is_ValueError e); discriminate. }
    unfold mret. intros H. injection H as <- <-. cbn. auto.
  - unfold mret. intros H. injection H as <- <-. cbn. auto.
Qed.

(** Within 100 ms of the last fresh read, a second read of the same socket
    is served from the cache: it returns the earlier reading, touches no
    counter file and changes nothing, whatever the counters say by then.
    Once the caller has invalidated the entry, the next read goes to sysfs
    again. *)
Theorem cached_read_within_100ms (fs fs' : gmap string node) (now now' : Q) (sid : Z)
    (st st' : MeterState) (reading : PCMReading) :
  _last_reading_cache st !! sid = None ->
  _read_socket_energy fs now sid st = (inr reading, st') ->
  (now' - now < 1 # 10)%Q ->
  _read_socket_energy fs' now' sid st' = (inr reading, st')
  /\ _last_reading_cache (invalidate sid st') !! sid = None
  /\ forall uj, fs' !! rapl_socket_dir sid = Some Directory ->
       fs' !! package_energy_file sid = Some (Counter uj) ->
       fs' !! dram_energy_file sid = None ->
       fst (_read_socket_energy fs' now' sid (invalidate sid st'))
       = inr {| socket_id := sid;
                package_energy_joules := joules_of_uj uj;
                dram_energy_joules := 0;
                timestamp := now' |}.
Proof.
  intros Hmiss Hread Hsoon.
  destruct (fresh_read_fills_cache fs now sid st st' reading Hmiss Hread)
    as [Hcache [Hstamp _]].
  assert (Hgone : _last_reading_cache (invalidate sid st') !! sid = None).
  { unfold invalidate, set_cache. cbn [_last_reading_cache]. apply lookup_delete_eq. }
  split; [|split; [exact Hgone|]].
  - unfold _read_socket_energy. rewrite Hcache, lookup_insert_eq, Hstamp.
    apply flt_true in Hsoon. unfold _cache_max_age. rewrite Hsoon. reflexivity.
  - intros uj Hdir Hpkg Hdram.
    exact (read_without_dram fs' now' sid uj (invalidate sid st') Hgone Hdir Hpkg Hdram).
Qed.

(** The cache has one timestamp for all sockets: a fresh read of socket
    [other] makes the cached reading of socket [sid] count as fresh again,
    however old it is. *)
Theorem cache_timestamp_is_shared (fs fs' : gmap string node) (now now' : Q)
    (sid other : Z) (st st' : MeterState) (old fresh : PCMReading) :
  sid <> other ->
  _last_reading_cache st !! sid = Some old ->
  _last_reading_cache st !! other = None ->
  _read_socket_energy fs now other st = (inr fresh, st') ->
  (now' - now < 1 # 10)%Q ->
  _read_socket_energy fs' now' sid st' = (inr old, st').
Proof.
  intros Hne Hold Hmiss Hread Hsoon.
  destruct (fresh_read_fills_cache fs now other st st' fresh Hmiss Hread)
    as [Hcache [Hstamp _]].
  unfold _read_socket_energy.
  rewrite Hcache, lookup_insert_ne by congruence. rewrite Hold, Hstamp.
  apply flt_true in Hsoon. unfold _cache_max_age. rewrite Hsoon. reflexivity.
Qed.

(** A read that misses the cache fails with [EnergyMeterError], and leaves
    the cache as it was, when the socket's directory or its package counter
    is missing, or when the package counter cannot be read or is not a
    number. *)
Theorem read_errors (fs : gmap string node) (now : Q) (sid : Z) (st : MeterState) :
  _last_reading_cache st !! sid = None ->
  (fs !! rapl_socket_dir sid = None ->
   _read_socket_energy fs now sid st
   = (inl (EnergyMeterError ("RAPL interface not found for socket " +:+ pretty sid)), st))
  /\ (fs !! rapl_socket_dir sid <> None ->
      fs !! package_energy_file sid = None
      \/ fs !! package_energy_file sid = Some Garbled
      \/ fs !! package_energy_file sid = Some Unreadable
      \/ fs !! package_energy_file sid = Some Directory ->
      exists message st',
        _read_socket_energy fs now sid st = (inl (EnergyMeterError message), st')
        /\ _last_reading_cache st' = _last_reading_cache st
        /\ _cache_timestamp st' = _cache_timestamp st).
Proof.
  intros Hmiss. unfold _read_socket_energy. rewrite Hmiss. unfold exists_. split.
  - intros ->. reflexivity.
  - intros Hdir Hfile.
    destruct (fs !! rapl_socket_dir sid); [|contradiction]. cbn [negb].
    unfold read_counters, exists_, mbind, read_int.
    destruct Hfile as [Hf|[Hf|[Hf|Hf]]]; rewrite Hf; cbn; eauto.
Qed.

End ReaderMore.

(** The cache theorems on a tree with two sockets: socket 0 is read at
    second 0, socket 1 at second 1000, and socket 0 again 50 ms later. *)
Lemma cached_read_within_100ms_witness :
  fst (pcm_socket_meter._read_socket_energy (examples.sysfs_two_sockets 9000000 0)
         (1 # 20) 0
         (snd (pcm_socket_meter._read_socket_energy (examples.sysfs_two_sockets 1000000 0)
                 0 0 pcm_socket_meter.new)))
  = inr {| pcm_socket_meter.socket_id := 0;
           pcm_socket_meter.package_energy_joules := pcm_socket_meter.joules_of_uj 1000000;
           pcm_socket_meter.dram_energy_joules := 0;
           pcm_socket_meter.timestamp := 0 |}.
Proof.
  refine (f_equal fst
            (proj1 (cached_read_within_100ms (examples.sysfs_two_sockets 1000000 0)
                      (examples.sysfs_two_sockets 9000000 0) 0 (1 # 20) 0
                      pcm_socket_meter.new
                      (snd (pcm_socket_meter._read_socket_energy
                              (examples.sysfs_two_sockets 1000000 0) 0 0
                              pcm_socket_meter.new))
                      _ _ _ _)));
    [reflexivity | vm_compute; reflexivity | reflexivity].
Defined.

Lemma cache_timestamp_is_shared_witness :
  fst (pcm_socket_meter._read_socket_energy (examples.sysfs_two_sockets 9000000 5000000)
         (20001 # 20) 0
         (snd (pcm_socket_meter._read_socket_energy
                 (examples.sysfs_two_sockets 9000000 5000000) 1000 1
                 (snd (pcm_socket_meter._read_socket_energy
                         (examples.sysfs_two_sockets 1000000 0) 0 0
                         pcm_socket_meter.new)))))
  = inr {| pcm_socket_meter.socket_id := 0;
           pcm_socket_meter.package_energy_joules := pcm_socket_meter.joules_of_uj 1000000;
           pcm_socket_meter.dram_energy_joules := 0;
           pcm_socket_meter.timestamp := 0 |}.
Proof.
  refine (f_equal fst
            (cache_timestamp_is_shared (examples.sysfs_two_sockets 9000000 5000000)
               (examples.sysfs_two_sockets 9000000 5000000) 1000 (20001 # 20) 0 1
               (snd (pcm_socket_meter._read_socket_energy
                       (examples.sysfs_two_sockets 1000000 0) 0 0 pcm_socket_meter.new))
               (snd (pcm_socket_meter._read_socket_energy
                       (examples.sysfs_two_sockets 9000000 5000000) 1000 1
                       (snd (pcm_socket_meter._read_socket_energy
                               (examples.sysfs_two_sockets 1000000 0) 0 0
                               pcm_socket_meter.new))))
               _
               {| pcm_socket_meter.socket_id := 1;
                  pcm_socket_meter.package_energy_joules :=
                    pcm_socket_meter.joules_of_uj 5000000;
                  pcm_socket_meter.dram_energy_joules := 0;
                  pcm_socket_meter.timestamp := 1000 |}
               _ _ _ _ _));
    [lia | vm_compute; reflexivity | vm_compute; reflexivity | vm_compute; reflexivity
     | reflexivity].
Defined.

Lemma read_errors_witness :
  pcm_socket_meter._read_socket_energy (examples.sysfs_two_sockets 1000000 0) 0 2
    pcm_socket_meter.new
  = (inl (py.EnergyMeterError "RAPL interface not found for socket 2"),
     pcm_socket_meter.new).
Proof.
  apply (proj1 (read_errors (examples.sysfs_two_sockets 1000000 0) 0 2
                  pcm_socket_meter.new eq_refl)).
  vm_compute. reflexivity.
Defined.

(** ** The executor: failing paths and the sign of the net energy *)

Section ExecutorMore.
Import py socket_executor.



(** Every successful result of the accounting has a net package energy and
    a net total energy that are not negative, the total is at least the
    package part, and the package part is zero when the raw delta does not
    exceed the baseline. *)
Theorem net_energy_is_never_negative (self : SocketExecutor.t) (trial : Z)
    (now_iso : string) (E0 E1 : pcm_socket_meter.PCMReading) (dt : Q)
    (r : ExecutionResult) :
  SocketExecutor.account trial now_iso E0 E1 dt self = inr r ->
  (0 <= package_net_energy_joules r)%Q
  /\ (0 <= net_energy_joules r)%Q
  /\ (package_net_energy_joules r <= net_energy_joules r)%Q
  /\ ((raw_energy_joules r <= baseline_energy_joules r)%Q ->
      (package_net_energy_joules r == 0)%Q)
  /\ ((baseline_energy_joules r <= raw_energy_joules r)%Q ->
      (package_net_energy_joules r == raw_energy_joules r - baseline_energy_joules r)%Q).
Proof.
  unfold SocketExecutor.account.
  destruct (CalibrationProfile.get_baseline_energy dt (SocketExecutor.calibration self))
    as [e|baseline]; [discriminate|].
  unfold ret. intros H. injection H as <-.
  cbn [package_net_energy_joules net_energy_joules raw_energy_joules
       baseline_energy_joules successful_result].
  set (pkg := SocketExecutor.fix_rollover _).
  set (dram := SocketExecutor.fix_rollover _).
  pose proof (max_zero_nonneg (pkg - baseline)) as Hp.
  pose proof (max_zero_nonneg dram) as Hd.
  split; [exact Hp|]. split; [lra|]. split; [lra|]. split.
  - intros Hle. rewrite max_zero_l. apply Q.max_l. lra.
  - intros Hle. rewrite max_zero_l. apply Q.max_r. lra.
Qed.

End ExecutorMore.



Lemma net_energy_is_never_negative_witness :
  exists r,
    socket_executor.SocketExecutor.account 0 "2025-01-02T00:00:00"
      {| pcm_socket_meter.socket_id := 0;
         pcm_socket_meter.package_energy_joules := 100;
         pcm_socket_meter.dram_energy_joules := 7;
         pcm_socket_meter.timestamp := 0 |}
      {| pcm_socket_meter.socket_id := 0;
         pcm_socket_meter.package_energy_joules := 102;
         pcm_socket_meter.dram_energy_joules := 8;
         pcm_socket_meter.timestamp := 1 |}
      (1 # 2) (examples.ready_executor examples.patched_getattr (Some (10 # 1)%Q))
    = inr r
    /\ (0 <= socket_executor.net_energy_joules r)%Q.
Proof.
  eexists. split; [reflexivity|].
  eapply (net_energy_is_never_negative
            (examples.ready_executor examples.patched_getattr (Some (10 # 1)%Q))).
  reflexivity.
Defined.

(** ** Setting up and cleaning up *)

Section SetupMore.
Import py socket_executor.

(** A successful [setup] of the meter leaves it marked as set up, with a
    topology of at least one socket. *)
Lemma meter_setup_success (env : pcm_socket_meter.SetupEnv)
    (st st' : pcm_socket_meter.MeterState) (u : unit) :
  pcm_socket_meter.setup env st = (inr u, st') ->
  pcm_socket_meter._setup_complete st' = true.
Proof.
  unfold pcm_socket_meter.setup.
  destruct (pcm_socket_meter._setup_complete st) eqn:Hdone.
  - intros H. injection H as _ <-. exact Hdone.
  - destruct (pcm_socket_meter.is_available env st) as [available st1].
    destruct available; cbn [negb]; [|discriminate].
    destruct (pcm_socket_meter.topology st1) as [t|]; [|discriminate].
    destruct (pcm_socket_meter.socket_count t =? 0); [discriminate|].
    destruct (pcm_socket_meter.test_readings env _ st1) as [[e|[]] st2]; [discriminate|].
    intros H. injection H as _ <-. reflexivity.
Qed.

(** [setup] on an initialized executor does nothing. A first [setup] that
    succeeds leaves the executor initialized, its meter set up, and a
    calibration that passes the validity check at the time of the setup
    and whose baseline is available for every duration. A [setup] that
    raises leaves the executor uninitialized, so that the next call runs
    it again. *)
Theorem setup_establishes_the_baseline (env : SetupEnv) (self : SocketExecutor.t) :
  (SocketExecutor._initialized self = true ->
   SocketExecutor.setup env self = (inr tt, self))
  /\ (SocketExecutor._initialized self = false ->
      forall self',
        (forall u, SocketExecutor.setup env self = (inr u, self') ->
           SocketExecutor._initialized self' = true
           /\ pcm_socket_meter._setup_complete (SocketExecutor.meter self') = true
           /\ fst (CalibrationProfile.is_valid (setup_datetime_now env)
                     (SocketExecutor.calibration self')) = true
           /\ exists watts,
                CalibrationProfile.idle_power_watts (SocketExecutor.calibration self')
                = Some watts
                /\ ~ (watts == 0)%Q
                /\ forall duration,
                     CalibrationProfile.get_baseline_energy duration
                       (SocketExecutor.calibration self')
                     = inr (watts * duration)%Q)
        /\ (forall e, SocketExecutor.setup env self = (inl e, self') ->
              SocketExecutor._initialized self' = false)).
Proof.
  unfold SocketExecutor.setup. split.
  - intros ->. reflexivity.
  - intros Hinit self'. rewrite Hinit.
    unfold mbind, SocketExecutor.on_meter, SocketExecutor.on_calibration.
    destruct (pcm_socket_meter.setup (meter_env env) (SocketExecutor.meter self))
      as [[e|[]] st] eqn:Hmeter.
    { split; [discriminate|]. intros e0 H. injection H as _ <-. exact Hinit. }
    cbn [SocketExecutor.calibration SocketExecutor.set_meter].
    destruct (CalibrationProfile.load (calibration_file env) (SocketExecutor.calibration self))
      as [[e|[]] c] eqn:Hload.
    { split; [discriminate|]. intros e0 H. injection H as _ <-. exact Hinit. }
    cbn [SocketExecutor.calibration SocketExecutor.set_calibration].
    destruct (CalibrationProfile.is_valid (setup_datetime_now env) c) as [valid reason]
      eqn:Hvalid.
    destruct valid; cbn [negb].
    + split; [|discriminate]. intros u H. injection H as _ <-.
      cbn [SocketExecutor._initialized SocketExecutor.set_initialized SocketExecutor.meter
           SocketExecutor.calibration SocketExecutor.set_calibration
           SocketExecutor.set_meter].
      split; [reflexivity|].
      split; [exact (meter_setup_success _ _ _ _ Hmeter)|].
      split; [rewrite Hvalid; reflexivity|].
      assert (Htruthy : truthy_float (CalibrationProfile.idle_power_watts c) = true).
      { unfold CalibrationProfile.is_valid in Hvalid.
        destruct (truthy_float (CalibrationProfile.idle_power_watts c));
          [reflexivity | discriminate Hvalid]. }
      destruct (CalibrationProfile.idle_power_watts c) as [watts|] eqn:Hidle;
        [|discriminate Htruthy].
      exists watts. split; [reflexivity|].
      split; [apply truthy_float_some; exact Htruthy|].
      intros duration. unfold CalibrationProfile.get_baseline_energy.
      rewrite Hidle, Htruthy. reflexivity.
    + split; [discriminate|]. intros e H. injection H as _ <-. exact Hinit.
Qed.

End SetupMore.

(** ** The aggregator: what every result satisfies *)

Section AggregatorMore.
Import py socket_executor statistical_aggregator.

Variable math_sqrt : Q -> Q.

Lemma summarize_lists (self : StatisticalAggregator.t) (l : locals) (r : AggregatedResult) :
  StatisticalAggregator.summarize math_sqrt self l = inr r ->
  trial_energies r = List.map net_energy_joules (successful_results l)
  /\ trial_times r = List.map execution_time_seconds (successful_results l).
Proof.
  unfold StatisticalAggregator.summarize.
  repeat match goal with
         | |- context [match ?x with _ => _ end] => destruct x; try discriminate
         end.
  unfold ret. intros H. injection H as <-. split; reflexivity.
Qed.

(** Every result the aggregator returns accounts for all trials it ran:
    successes and failures add up to the trials run, at most [max_trials]
    of them; at least one trial succeeded; and the lists of energies and
    times have one entry per success. With early stopping disabled, all
    [max_trials] trials are run and the result is never an early stop. *)
Theorem result_counts_add_up (S : Type) (run : Z -> M S ExecutionResult)
    (self : StatisticalAggregator.t) (s s' : S) (r : AggregatedResult) :
  StatisticalAggregator.aggregate_measurements math_sqrt S run true self s = (inr r, s') ->
  successful_trials r + failed_trials r = total_trials r
  /\ 1 <= successful_trials r
  /\ 0 <= failed_trials r
  /\ total_trials r <= StatisticalAggregator.max_trials self
  /\ len (trial_energies r) = successful_trials r
  /\ len (trial_times r) = successful_trials r
  /\ (StatisticalAggregator.early_stop_enabled self = false ->
      total_trials r = StatisticalAggregator.max_trials self
      /\ early_stop r = false /\ early_stop_reason r = None).
Proof.
  unfold StatisticalAggregator.aggregate_measurements. cbn [negb]. unfold mbind.
  destruct (StatisticalAggregator.trial_loop math_sqrt S run self
              (range (StatisticalAggregator.max_trials self)) initial_locals s)
    as [[e|l] s1] eqn:Hloop; [discriminate|].
  intros Hsum. injection Hsum as Hsum _.
  assert (Hne : successful_results l <> []).
  { intros Hnil. unfold StatisticalAggregator.summarize in Hsum.
    rewrite Hnil in Hsum. discriminate Hsum. }
  assert (Hlen : 0 < len (successful_results l)).
  { destruct (successful_results l); [contradiction | apply len_cons_pos]. }
  destruct (summarize_lists self l r Hsum) as [Henergies Htimes].
  assert (Hlists : len (trial_energies r) = len (successful_results l)
                   /\ len (trial_times r) = len (successful_results l)).
  { rewrite Henergies, Htimes. unfold len. rewrite !length_map. auto. }
  destruct Hlists as [Hle Hlt].
  unfold range in Hloop.
  apply (trial_loop_outcome math_sqrt S run self) in Hloop;
    [|reflexivity | cbn; lia | reflexivity | reflexivity | intros H; contradiction
     | intros H; contradiction].
  cbn [Nat.add] in Hloop.
  destruct Hloop as [[Hes [Hsr [Hcount [Hfail [Hlast Hquiet]]]]]
                    |[Hes [[n [Hn [Hcount [Hfail Hbound]]]] [Hen _]]]].
  - assert (HN : Z.to_nat (StatisticalAggregator.max_trials self) <> 0%nat).
    { intros H0. rewrite H0 in Hcount. cbn in Hcount. lia. }
    destruct (summarize_fields math_sqrt self l Hne _ (Hlast HN))
      as [r' [Hr' [Hs [Hf [Ht [Hstop [Hreason _]]]]]]].
    rewrite Hr' in Hsum. injection Hsum as ->.
    rewrite Hle, Hlt, Hs, Hf, Ht, Hstop, Hreason, Hes, Hsr.
    split; [lia|]. split; [lia|]. split; [lia|]. split; [lia|].
    split; [reflexivity|]. split; [reflexivity|].
    intros _. split; [lia | auto].
  - destruct (summarize_fields math_sqrt self l Hne n Hn)
      as [r' [Hr' [Hs [Hf [Ht [Hstop [Hreason _]]]]]]].
    rewrite Hr' in Hsum. injection Hsum as ->.
    rewrite Hle, Hlt, Hs, Hf, Ht.
    split; [lia|]. split; [lia|]. split; [lia|]. split; [lia|].
    split; [reflexivity|]. split; [reflexivity|].
    intros Hoff. congruence.
Qed.

End AggregatorMore.

Lemma result_counts_add_up_witness :
  exists r,
    statistical_aggregator.StatisticalAggregator.aggregate_measurements examples.exact_sqrt
      unit
      (examples.scripted
         [examples.bad_trial 0; examples.ok_trial 1 1 1;
          examples.ok_trial 2 2 1; examples.ok_trial 3 3 1])
      true (examples.aggregator 3 4) tt = (inr r, tt)
    /\ statistical_aggregator.successful_trials r + statistical_aggregator.failed_trials r
       = statistical_aggregator.total_trials r.
Proof.
  eexists. split; [vm_compute; reflexivity|].
  eapply (result_counts_add_up examples.exact_sqrt unit
            (examples.scripted
               [examples.bad_trial 0; examples.ok_trial 1 1 1;
                examples.ok_trial 2 2 1; examples.ok_trial 3 3 1])
            (examples.aggregator 3 4) tt tt).
  vm_compute. reflexivity.
Defined.

(** ** The coefficient of variation at its edges *)

Section VariationMore.
Import py socket_executor statistical_aggregator.

Variable math_sqrt : Q -> Q.

Lemma fsum_zero (values : list Q) :
  Forall (fun x => x == 0)%Q values -> (statistics.fsum values == 0)%Q.
Proof.
  induction 1 as [|x xs Hx _ IH]; cbn [statistics.fsum fold_right]; [reflexivity|].
  unfold statistics.fsum in IH. rewrite Hx, IH. reflexivity.
Qed.

(** [_calculate_cv] never raises; it answers 0 for fewer than two values
    and for values whose mean is 0. So when every trial's net energy is 0
    (the work stayed below the baseline), the CV is 0: with a positive
    target the stop check answers "achieved target" as soon as
    [min_trials] trials succeeded, and the label is "high". *)
Theorem zero_energy_counts_as_converged (self : StatisticalAggregator.t)
    (values : list Q) :
  (exists cv, StatisticalAggregator._calculate_cv math_sqrt values = inr cv)
  /\ (len values < 2 -> StatisticalAggregator._calculate_cv math_sqrt values = inr 0%Q)
  /\ (Forall (fun x => x == 0)%Q values ->
      StatisticalAggregator._calculate_cv math_sqrt values = inr 0%Q
      /\ (StatisticalAggregator.early_stop_enabled self = true ->
          StatisticalAggregator.min_trials self <= len values ->
          (0 < StatisticalAggregator.target_cv_percent self)%Q ->
          StatisticalAggregator._should_stop_early math_sqrt values (len values) self
          = inr (true,
                 Some (AchievedTargetCV 0 (StatisticalAggregator.target_cv_percent self)))
          /\ StatisticalAggregator._assess_confidence 0 (len values) self = "high")).
Proof.
  split; [apply calculate_cv_total|]. split; [apply calculate_cv_short|].
  intros Hzero.
  assert (Hcv : StatisticalAggregator._calculate_cv math_sqrt values = inr 0%Q).
  { unfold StatisticalAggregator._calculate_cv.
    destruct (len values <? 2) eqn:E; [reflexivity|].
    rewrite mean_total by (intros ->; cbv in E; discriminate E).
    assert (Hmean : feq (statistics.fsum values / inject_Z (len values)) 0 = true).
    { apply feq_true. rewrite (fsum_zero values Hzero). unfold Qdiv. ring. }
    rewrite Hmean. reflexivity. }
  split; [exact Hcv|].
  intros Hen Hmin Htarget.
  rewrite (should_stop_early_cases math_sqrt values (len values) self 0 Hcv).
  rewrite Hen. cbn [negb orb].
  destruct (len values <? StatisticalAggregator.min_trials self) eqn:E; [lia|].
  apply flt_true in Htarget. rewrite Htarget.
  split; [reflexivity|].
  unfold StatisticalAggregator._assess_confidence.
  change (flt 0 5) with true. cbn [andb].
  destruct (StatisticalAggregator.min_trials self <=? len values) eqn:E2; [reflexivity | lia].
Qed.

End VariationMore.

(** ** The resource limits: what entering and leaving restore *)

Section LimitsMore.
Import py executor.



End LimitsMore.


(** ** The meter's own trials *)

Section MeterTrials.
Import py pcm_socket_meter pcm_trials.

(** A measurement that [_measure_single_trial] returns carries the core and
    the trial number it was asked for. *)
Lemma measured_trial_labels (pcm_timeout : Z) (env : TrialEnv) (core trial : Z)
    (st st' : MeterState) (m : EnergyMeasurement) :
  _measure_single_trial pcm_timeout env core trial st = (inr m, st') ->
  cpu_core m = core /\ trial_number m = trial /\ thermal_state m = "measured".
Proof.
  unfold _measure_single_trial, mbind.
  destruct (get_cpu_socket core st) as [[e|socket] st0]; [discriminate|].
  destruct (tempfile env); [discriminate|].
  destruct (_read_socket_energy (fs_before env) (time_before env) socket _)
    as [[e|before] st1]; [discriminate|].
  destruct (run_child pcm_timeout (child env)) as [e|[returncode stderr]]; [discriminate|].
  destruct (_read_socket_energy (fs_after env) (time_after env) socket _)
    as [[e|after] st2]; [discriminate|].
  destruct (negb (returncode =? 0)); [discriminate|].
  destruct (trial_deltas before after) as [package_energy dram_energy].
  unfold mret. intros H. injection H as <- _. auto.
Qed.

(** The loop keeps what it had and appends, in order, one measurement for
    each trial that did not raise. *)
Lemma measure_trials_appends (pcm_timeout : Z) (envs : Z -> TrialEnv) (core : Z)
    (remaining : list Z) :
  forall (measurements : list EnergyMeasurement) (st : MeterState),
  exists new,
    fst (measure_trials pcm_timeout envs core remaining measurements st)
    = (measurements ++ new)%list
    /\ sublist (List.map trial_number new) remaining
    /\ Forall (fun m => cpu_core m = core /\ thermal_state m = "measured") new.
Proof.
  induction remaining as [|trial rest IH]; intros measurements st.
  - exists []. cbn. rewrite app_nil_r. split; [reflexivity|]. split; constructor.
  - cbn [measure_trials].
    destruct (_measure_single_trial pcm_timeout (envs trial) core trial st)
      as [[e|m] st'] eqn:Htrial.
    + destruct (IH measurements st') as [new [Heq [Hsub Hall]]].
      exists new. split; [exact Heq|]. split; [|exact Hall].
      apply sublist_cons. exact Hsub.
    + destruct (IH (measurements ++ [m])%list st') as [new [Heq [Hsub Hall]]].
      destruct (measured_trial_labels _ _ _ _ _ _ _ Htrial) as [Hcore [Hnum Hstate]].
      exists (m :: new). split.
      * rewrite Heq, <- app_assoc. reflexivity.
      * split.
        -- cbn [List.map]. rewrite Hnum. apply sublist_skip. exact Hsub.
        -- constructor; auto.
Qed.

Lemma range_spec (n x : Z) : In x (range n) <-> 0 <= x < n.
Proof.
  unfold range. rewrite in_map_iff. split.
  - intros [k [<- Hk]]. apply in_seq in Hk. lia.
  - intros Hx. exists (Z.to_nat x). split; [lia|]. apply in_seq. lia.
Qed.

Lemma range_NoDup (n : Z) : NoDup (range n).
Proof.
  unfold range. apply NoDup_fmap_2; [intros a b H; lia|]. apply NoDup_seq.
Qed.

(** What [measure_execution] returns on a meter that is set up: at least
    one and at most [trials] measurements, each for the requested core and
    marked "measured", with trial numbers in [range(trials)] and no number
    twice; and the only exception it raises is "All measurement trials
    failed". *)
Theorem measure_execution_outcome (pcm_timeout : Z) (setup_env : SetupEnv)
    (envs : Z -> TrialEnv) (trials core : Z) (st : MeterState) :
  _setup_complete st = true ->
  match fst (measure_execution pcm_timeout setup_env envs trials core st) with
  | inr measurements =>
      1 <= len measurements <= trials
      /\ Forall (fun m => cpu_core m = core /\ thermal_state m = "measured"
                          /\ 0 <= trial_number m < trials) measurements
      /\ NoDup (List.map trial_number measurements)
  | inl e => e = EnergyMeterError "All measurement trials failed"
  end.
Proof.
  intros Hready. unfold measure_execution, mbind. rewrite Hready.
  destruct (measure_trials_appends pcm_timeout envs core (range trials) [] st)
    as [new [Heq [Hsub Hall]]].
  destruct (measure_trials pcm_timeout envs core (range trials) [] st) as [ms st'].
  cbn [fst app] in Heq. subst ms.
  destruct new as [|m new]; [reflexivity|]. cbn [fst].
  split; [|split].
  - pose proof (sublist_length _ _ Hsub) as Hlen.
    rewrite length_map in Hlen. unfold range in Hlen.
    rewrite length_map, length_seq in Hlen.
    unfold len. cbn [length] in *. lia.
  - rewrite Forall_forall in Hall |- *. intros x Hx.
    destruct (Hall x Hx) as [Hc Ht]. split; [exact Hc|]. split; [exact Ht|].
    apply range_spec. apply list_elem_of_In.
    apply (sublist_subseteq _ _ Hsub).
    apply list_elem_of_In. apply in_map. apply list_elem_of_In. exact Hx.
  - exact (sublist_NoDup _ _ (range_NoDup trials) Hsub).
Qed.

(** A core that the topology does not know: every trial raises before it
    reads anything, so [measure_execution] raises "All measurement trials
    failed" and the meter is left exactly as it was. *)
Theorem unknown_core_measures_nothing (pcm_timeout : Z) (setup_env : SetupEnv)
    (envs : Z -> TrialEnv) (trials core : Z) (st : MeterState) (t : SocketTopology) :
  _setup_complete st = true ->
  topology st = Some t ->
  cpu_to_socket t !! core = None ->
  measure_execution pcm_timeout setup_env envs trials core st
  = (inl (EnergyMeterError "All measurement trials failed"), st).
Proof.
  intros Hready Htopology Hcore. unfold measure_execution, mbind. rewrite Hready.
  assert (Hloop : forall remaining,
    measure_trials pcm_timeout envs core remaining [] st = ([], st)).
  { induction remaining as [|trial rest IH]; [reflexivity|].
    cbn [measure_trials]. unfold _measure_single_trial, mbind, get_cpu_socket.
    rewrite Htopology, Hcore. exact IH. }
  rewrite Hloop. reflexivity.
Qed.

End MeterTrials.

(** The meter's trials on the one-socket host: three trials on core 4, and
    on core 9, which the topology does not know. *)
Lemma measure_execution_outcome_witness :
  match fst (pcm_trials.measure_execution 10 (socket_executor.meter_env (examples.setup_env 10))
               (fun _ => examples.meter_trial_env 4294000000 1000000) 3 4
               examples.ready_meter) with
  | inr measurements => 1 <= py.len measurements <= 3
  | inl e => e = py.EnergyMeterError "All measurement trials failed"
  end.
Proof.
  pose proof (measure_execution_outcome 10 (socket_executor.meter_env (examples.setup_env 10))
                (fun _ => examples.meter_trial_env 4294000000 1000000) 3 4
                examples.ready_meter eq_refl) as H.
  destruct (fst (pcm_trials.measure_execution 10 _ _ 3 4 examples.ready_meter)).
  - exact H.
  - exact (proj1 H).
Defined.

Lemma unknown_core_measures_nothing_witness :
  pcm_trials.measure_execution 10 (socket_executor.meter_env (examples.setup_env 10))
    (fun _ => examples.meter_trial_env 4294000000 1000000) 3 9 examples.ready_meter
  = (inl (py.EnergyMeterError "All measurement trials failed"), examples.ready_meter).
Proof.
  apply (unknown_core_measures_nothing 10 (socket_executor.meter_env (examples.setup_env 10))
           (fun _ => examples.meter_trial_env 4294000000 1000000) 3 9 examples.ready_meter
           examples.one_socket).
  - reflexivity.
  - reflexivity.
  - reflexivity.
Defined.

(** ** Setting up the meter *)

Section MeterSetup.
Import py pcm_socket_meter.




End MeterSetup.

(** ** The response of a measured request, and the validator's record *)

Section Responses.
Import py socket_measurement_task.


(** [pass_rate] never divides by zero: it is 0 for a record without tests,
    and otherwise the share of passed tests as a percentage, which lies
    between 0 and 100 when the passed tests are between 0 and the total,
    and is 100 exactly when all tests passed. *)
Theorem pass_rate_is_a_percentage (v : models.ValidationResult) :
  exists rate,
    models.pass_rate v = inr rate
    /\ (models.total_tests v = 0 -> rate = 0%Q)
    /\ (0 < models.total_tests v ->
        (rate == inject_Z (models.passed_tests v) / inject_Z (models.total_tests v)
                 * 100)%Q
        /\ (0 <= models.passed_tests v <= models.total_tests v ->
            (0 <= rate)%Q /\ (rate <= 100)%Q)
        /\ ((rate == 100)%Q <-> models.passed_tests v = models.total_tests v)).
Proof.
  unfold models.pass_rate.
  destruct (models.total_tests v =? 0) eqn:Hzero.
  - eexists. split; [reflexivity|]. split; [reflexivity|]. lia.
  - rewrite fdiv_by_count by lia.
    eexists. split; [reflexivity|]. split; [lia|]. intros Hpos.
    set (p := models.passed_tests v) in *. set (t := models.total_tests v) in *.
    assert (Ht : (0 < inject_Z t)%Q) by (unfold Qlt, inject_Z; simpl; lia).
    split; [reflexivity|]. split.
    + intros [Hp0 Hpt].
      assert (Hp : (0 <= inject_Z p)%Q) by (unfold Qle, inject_Z; simpl; lia).
      assert (Hle : (inject_Z p <= inject_Z t)%Q) by (unfold Qle, inject_Z; simpl; lia).
      split.
      * apply Qmult_le_0_compat; [|discriminate].
        apply Qle_shift_div_l; [exact Ht|]. lra.
      * apply Qle_trans with (1 * 100)%Q; [|discriminate].
        apply Qmult_le_compat_r; [|discriminate].
        apply Qle_shift_div_r; [exact Ht|]. lra.
    + split.
      * intros Hfull.
        assert (Heq : (inject_Z p == inject_Z t)%Q).
        { assert (Hone : (inject_Z p / inject_Z t == 1)%Q).
          { apply (Qmult_inj_r _ _ 100); [discriminate|]. rewrite Hfull. reflexivity. }
          apply (Qmult_inj_r _ _ (/ inject_Z t)).
          - intros Hinv. apply Qinv_lt_0_compat in Ht. lra.
          - unfold Qdiv in Hone. rewrite Hone. field. lra. }
        unfold Qeq, inject_Z in Heq. simpl in Heq. lia.
      * intros ->. field. lra.
Qed.

End Responses.

(** ** The locking discipline of the task *)

Section Discipline.
Import py socket_executor statistical_aggregator socket_measurement_task.

Variable math_sqrt : Q -> Q.

(** A step of the task that only appends events, none of them a lock event. *)
Let quiet_step {A : Type} (m : M world A) : Prop :=
  forall w, exists evs,
    events (snd (m w)) = (events w ++ evs)%list
    /\ Forall (fun e => trace.locking e = false) evs.

Lemma quiet_bind {A B : Type} (m : M world A) (k : A -> M world B) :
  quiet_step m -> (forall a, quiet_step (k a)) -> quiet_step (mbind m k).
Proof.
  intros Hm Hk w. unfold mbind. destruct (Hm w) as [evs [Heq Hall]].
  destruct (m w) as [[e|a] w1]; cbn [snd] in *; [eauto|].
  destruct (Hk a w1) as [evs' [Heq' Hall']].
  exists (evs ++ evs')%list. split.
  - rewrite Heq', Heq, <- app_assoc. reflexivity.
  - apply Forall_app. split; assumption.
Qed.

Lemma quiet_emit (e : event) : trace.locking e = false -> quiet_step (emit e).
Proof.
  intros He w. exists [e]. split; [reflexivity|]. constructor; [exact He | constructor].
Qed.

Lemma quiet_on_executor {A : Type} (m : M SocketExecutor.t A) :
  quiet_step (on_executor m).
Proof.
  intros w. exists []. unfold on_executor. destruct (m (executor w)) as [a x].
  cbn. rewrite app_nil_r. split; [reflexivity | constructor].
Qed.

Lemma quiet_pure {A : Type} (f : world -> Exc A) : quiet_step (fun w => (f w, w)).
Proof.
  intros w. exists []. cbn. rewrite app_nil_r. split; [reflexivity | constructor].
Qed.

Lemma quiet_run_trial (env : TaskEnv) (n : Z) : quiet_step (run_trial env n).
Proof.
  unfold run_trial. apply quiet_bind.
  - apply quiet_emit. reflexivity.
  - intros _. apply quiet_on_executor.
Qed.

Lemma quiet_trial_loop (env : TaskEnv) (self : StatisticalAggregator.t)
    (trials : list Z) :
  forall l, quiet_step (StatisticalAggregator.trial_loop math_sqrt world (run_trial env)
                          self trials l).
Proof.
  induction trials as [|n rest IH]; intros l.
  - cbn [StatisticalAggregator.trial_loop]. apply (quiet_pure (fun _ => inr l)).
  - cbn [StatisticalAggregator.trial_loop]. apply quiet_bind; [apply quiet_run_trial|].
    intros result. destruct (success result); [|apply IH].
    destruct (_ <=? _); [|apply IH].
    destruct (StatisticalAggregator._should_stop_early _ _ _ _) as [e|[[] why]].
    + apply (quiet_pure (fun _ => inl e)).
    + apply (quiet_pure (fun _ => inr _)).
    + apply IH.
Qed.

Lemma quiet_locked_section (env : TaskEnv) : quiet_step (locked_section math_sqrt env).
Proof.
  unfold locked_section.
  apply quiet_bind; [apply quiet_emit; reflexivity|]. intros _.
  apply quiet_bind; [apply quiet_emit; reflexivity|]. intros _.
  apply quiet_bind; [apply quiet_on_executor|]. intros _.
  apply quiet_bind.
  - unfold StatisticalAggregator.aggregate_measurements. cbn [negb].
    apply quiet_bind; [apply quiet_trial_loop|]. intros l.
    apply (quiet_pure (fun _ => StatisticalAggregator.summarize math_sqrt task_aggregator l)).
  - intros result.
    apply quiet_bind; [apply quiet_emit; reflexivity|]. intros _.
    apply quiet_bind; [apply quiet_on_executor|]. intros _.
    apply (quiet_pure (fun _ => inr result)).
Qed.

(** The events a request adds are: some that do not use the socket; then,
    if the lock was acquired, the event of the acquisition, the events of
    the locked section, which contain no lock event, and the release; then
    again events that do not use the socket. So every executor setup, trial
    and cleanup of a request lies between its successful acquisition of the
    lock and the release that follows. *)
Theorem socket_is_used_under_the_lock_only (env : TaskEnv) (request_id : string)
    (w : world) :
  exists before locked after,
    events (snd (socket_measurement_task math_sqrt env request_id w))
    = (events w ++ before ++ locked ++ after)%list
    /\ Forall (fun e => trace.measuring e = false) before
    /\ Forall (fun e => trace.measuring e = false) after
    /\ (locked = []
        \/ exists inner,
             locked = (LockAcquire true :: inner ++ [LockRelease])%list
             /\ Forall (fun e => trace.locking e = false) inner).
Proof.
  unfold socket_measurement_task, task_body, mbind, update_state, emit, _validate_solution,
    mbind, emit.
  cbn [redis executor events].
  destruct (parsed env) as [e|request].
  { exists [UpdateState "initializing"; LockRelease], [], []. cbn [snd events].
    rewrite <- app_assoc. split; [reflexivity|].
    split; [repeat constructor|]. split; [constructor | left; reflexivity]. }
  destruct (validator_answer env) as [e|verdict].
  { exists [UpdateState "initializing"; UpdateState "validation"; ValidatorCalled;
            LockRelease], [], [].
    cbn [snd events]. repeat rewrite <- app_assoc. split; [reflexivity|].
    split; [repeat constructor|]. split; [constructor | left; reflexivity]. }
  cbn [v_is_correct]. destruct (is_correct verdict); cbn [negb].
  2:{ exists [UpdateState "initializing"; UpdateState "validation"; ValidatorCalled], [], [].
      cbn [snd events]. repeat rewrite <- app_assoc. split; [reflexivity|].
      split; [repeat constructor|]. split; [constructor | left; reflexivity]. }
  unfold with_lock. cbn [redis executor events].
  destruct (Socket0Lock.__enter__ task_lock (redis w)) as [[e|[]] r1].
  { exists [UpdateState "initializing"; UpdateState "validation"; ValidatorCalled;
            UpdateState "acquiring_socket0_lock"; LockAcquire false; LockRelease], [], [].
    cbn [snd events]. repeat rewrite <- app_assoc. split; [reflexivity|].
    split; [repeat constructor|]. split; [constructor | left; reflexivity]. }
  match goal with
  | |- context [locked_section math_sqrt env ?w0] =>
      destruct (quiet_locked_section env w0) as [inner [Hinner Hquiet]];
      destruct (locked_section math_sqrt env w0) as [[e|result] w2]
  end; cbn [snd redis executor events] in *.
  - exists [UpdateState "initializing"; UpdateState "validation"; ValidatorCalled;
            UpdateState "acquiring_socket0_lock"],
           (LockAcquire true :: inner ++ [LockRelease])%list, [LockRelease].
    rewrite Hinner. repeat (rewrite <- ?app_assoc; cbn [app]).
    split; [reflexivity|]. split; [repeat constructor|].
    split; [repeat constructor|]. right. exists inner. auto.
  - destruct (build_energy_metrics request result) as [e|metrics]; cbn [snd events].
    + exists [UpdateState "initializing"; UpdateState "validation"; ValidatorCalled;
              UpdateState "acquiring_socket0_lock"],
             (LockAcquire true :: inner ++ [LockRelease])%list,
             [UpdateState "finalizing"; LockRelease].
      rewrite Hinner. repeat (rewrite <- ?app_assoc; cbn [app]).
      split; [reflexivity|]. split; [repeat constructor|].
      split; [repeat constructor|]. right. exists inner. auto.
    + exists [UpdateState "initializing"; UpdateState "validation"; ValidatorCalled;
              UpdateState "acquiring_socket0_lock"],
             (LockAcquire true :: inner ++ [LockRelease])%list,
             [UpdateState "finalizing"].
      rewrite Hinner. repeat (rewrite <- ?app_assoc; cbn [app]).
      split; [reflexivity|]. split; [repeat constructor|].
      split; [repeat constructor|]. right. exists inner. auto.
Qed.

End Discipline.
